(** * document-qa-system: settings validation and document ingestion

    A shallow embedding of [config/settings.py] and
    [src/core/document_processor.py].

    - Python strings are held as their UTF-8 bytes ([string]); [len] counts
      the code points.
    - [pathlib.Path] is the POSIX flavour: a root and the list of components.
    - The operating system is an interface for the read-only calls of the
      document processor, in two forms.  [OS] is the one whose [exists()] and
      [is_file()] always answer, with the ASCII lowering [Py.lower]: it serves
      the statements that fix these answers or assume that the call returned.
      [Runtime.RT] is the one where [str.lower] is a parameter (Unicode) and
      [exists()], [is_file()] and the listing may raise; [DocProcR] is the
      processor over it, and equal to [DocProc] where the calls answer.
    - A directory tree ([FS.node]) is the file system where [Path.mkdir]
      changes it.  Names are plain entries: no symbolic links, and [".."] is
      not interpreted.  [os.mkdir] fails on it for what the tree decides (the
      entry exists, a parent is missing, a regular file is in the way), not
      for permissions, name lengths or a read-only file system; so the
      statements about the validator are about a directory that exists, a
      call that returned, or a regular file in the way.
    - Logging and exceptions are the effects of a writer/error monad [M].
    - The third-party loaders and the text splitter are parameters. *)

From Stdlib Require Import Ascii String.
From stdpp Require Import base option list strings gmap.

Local Open Scope string_scope.
Local Open Scope list_scope.

(** ** Python's string operations *)

Module Py.

Definition lower_ascii (c : ascii) : ascii :=
  let n := nat_of_ascii c in
  if (65 <=? n)%nat && (n <=? 90)%nat then ascii_of_nat (n + 32) else c.

(** [s.lower()] *)
Fixpoint lower (s : string) : string :=
  match s with
  | EmptyString => EmptyString
  | String c s' => String (lower_ascii c) (lower s')
  end.

(** a continuation byte of UTF-8, [10xxxxxx] *)
Definition is_continuation (c : ascii) : bool :=
  let n := nat_of_ascii c in
  (128 <=? n)%nat && (n <=? 191)%nat.

(** [len(s)]: the code points of [s], one for every byte that starts one *)
Fixpoint len (s : string) : nat :=
  match s with
  | EmptyString => 0%nat
  | String c s' => ((if is_continuation c then 0 else 1) + len s')%nat
  end.

(** [s.rfind(c)], [None] for -1 *)
Fixpoint rfind (c : ascii) (s : string) : option nat :=
  match s with
  | EmptyString => None
  | String a s' =>
      match rfind c s' with
      | Some i => Some (S i)
      | None => if Ascii.eqb a c then Some 0%nat else None
      end
  end.

(** [s[i:]] *)
Fixpoint drop (i : nat) (s : string) : string :=
  match i, s with
  | O, _ => s
  | S i', String _ s' => drop i' s'
  | S _, EmptyString => EmptyString
  end.

(** [s.split(sep)] for a one-character separator *)
Fixpoint split (sep : ascii) (s : string) : list string :=
  match s with
  | EmptyString => [EmptyString]
  | String a s' =>
      if Ascii.eqb a sep then EmptyString :: split sep s'
      else match split sep s' with
           | w :: ws => String a w :: ws
           | [] => [String a EmptyString]
           end
  end.

(** [sep.join(l)] *)
Definition join (sep : string) (l : list string) : string := String.concat sep l.

(** [repr(l)] for a list of strings that need no escaping (no quote, no
    backslash, printable ASCII): the keys of the loader table are such. *)
Definition repr_list (l : list string) : string :=
  "[" +:+ join ", " (map (fun s => "'" +:+ s +:+ "'") l) +:+ "]".

End Py.

(** ** pathlib's pure paths, POSIX flavour *)

Module PurePath.

Record path := { root : string; tail : list string }.

(** [posixpath.splitroot], without the (empty) drive:
[[
    if p[:1] != sep: return '', '', p
    elif p[1:2] != sep or p[2:3] == sep: return '', sep, p[1:]
    else: return '', p[:2], p[2:]
]] *)
Definition splitroot (p : string) : string * string :=
  match p with
  | String a p1 =>
      if negb (Ascii.eqb a "/") then ("", p)
      else
        match p1 with
        | String b p2 =>
            if negb (Ascii.eqb b "/") then ("/", p1)
            else
              match p2 with
              | String c _ => if Ascii.eqb c "/" then ("/", p1) else ("//", p2)
              | EmptyString => ("//", p2)
              end
        | EmptyString => ("/", p1)
        end
  | EmptyString => ("", p)
  end.

Definition is_part (x : string) : bool :=
  negb (String.eqb x "") && negb (String.eqb x ".").

(** [Path(s)] *)
Definition Path (s : string) : path :=
  let '(rt, rel) := splitroot s in
  {| root := rt; tail := filter (fun x => is_part x = true) (Py.split "/" rel) |}.

(** [str(p)] *)
Definition str (p : path) : string :=
  match root p, tail p with
  | EmptyString, [] => "."
  | rt, tl => rt +:+ Py.join "/" tl
  end.

(** [p.name] *)
Definition name (p : path) : string := List.last (tail p) "".

(** [p.suffix]: with [i = name.rfind('.')], [name[i:]] if
    [0 < i < len(name) - 1] and [''] otherwise.  The indices count bytes
    here, which decides the two tests the same way, the dot being one byte. *)
Definition suffix (p : path) : string :=
  let nm := name p in
  match Py.rfind "." nm with
  | Some i =>
      if (0 <? i)%nat && (i <? String.length nm - 1)%nat then Py.drop i nm else ""
  | None => ""
  end.


(** the child [p / nm] that [iterdir] yields for the entry [nm] *)
Definition child (p : path) (nm : string) : path :=
  {| root := root p; tail := tail p ++ [nm] |}.

(** a component: not empty, not ["."], without separator *)
Definition component (x : string) : Prop :=
  is_part x = true ∧ Py.split "/" x = [x].

Definition normal (p : path) : Prop :=
  root p ∈ [""; "/"; "//"] ∧ Forall component (tail p).

End PurePath.

(** ** Exceptions, log records and the effects of a call *)

Module Effects.

Inductive errno := ENOENT | EEXIST | ENOTDIR | EACCES.

#[export] Instance errno_eq_dec : EqDecision errno.
Proof. solve_decision. Defined.

(** The exceptions that reach this code; all are subclasses of [Exception].
    [OSError e filename] is what an operating-system call raises
    ([FileNotFoundError] for [ENOENT], [FileExistsError] for [EEXIST],
    [NotADirectoryError] for [ENOTDIR], [PermissionError] for [EACCES]);
    [FileNotFoundError msg] and [ValueError msg] are raised by the code itself
    with the message [msg]; [LibraryError] is any exception of a third-party
    loader. *)
Inductive exn :=
  | FileNotFoundError (msg : string)
  | ValueError (msg : string)
  | KeyError (key : string)
  | OSError (e : errno) (filename : string)
  | LibraryError (cls msg : string).

(** [except FileNotFoundError] *)
Definition is_FileNotFoundError (e : exn) : bool :=
  match e with
  | FileNotFoundError _ | OSError ENOENT _ => true
  | _ => false
  end.

Inductive level := ERROR | WARNING | INFO.

(** The messages of the [logger] calls, each with the values its f-string
    interpolates. *)
Inductive message :=
  | File_not_found (file_path : string)
  | Unsupported_file_type (file_extension : string)
  | Successfully_loaded_document (name : string) (total : nat)
  | Error_loading_document (name : string) (e : exn)
  | No_documents_to_split
  | Chunking_documents (chunk_size chunk_overlap : Z)
  | Created_chunks (chunks documents total_characters : nat)
  | Directory_not_found (directory_path : string)
  | Failed_to_process_file (name : string) (e : exn)
  | Total_documents_loaded (total : nat).

Definition log_record : Type := level * message.

(** A call: the records it logs, then the exception it raises or the value it
    returns. *)
Definition M (A : Type) : Type := list log_record * (exn + A).

#[export] Instance M_ret : MRet M := λ A a, ([], inr a).

#[export] Instance M_bind : MBind M := λ A B k m,
  match m with
  | (l, inl e) => (l, inl e)
  | (l, inr a) => let '(l', r) := k a in (l ++ l', r)
  end.

Definition raise {A} (e : exn) : M A := ([], inl e).

Definition logger (lv : level) (msg : message) : M unit := ([(lv, msg)], inr tt).

(** a call of the environment, which logs nothing here *)
Definition call {A} (r : exn + A) : M A := ([], r).

(** [try: body except Exception as e: handler e] *)
Definition except {A} (body : M A) (handler : exn → M A) : M A :=
  match body with
  | (l, inl e) => let '(l', r) := handler e in (l ++ l', r)
  | (l, inr a) => (l, inr a)
  end.

Definition logs {A} (m : M A) : list log_record := m.1.
Definition outcome {A} (m : M A) : exn + A := m.2.

End Effects.

(** ** The operating system *)

Module OSys.
Import PurePath Effects.

(** What the document processor asks of the file system: [Path.exists],
    [Path.is_file] (both answer [False] where [stat] fails) and the listing
    behind [Path.iterdir] (entry names, in directory-iteration order), which
    raises on a path that is no readable directory.  Here [exists] and
    [is_file] always answer; [Runtime.RT] is the interface where they may
    raise too. *)
Record OS := {
  os_exists : path → bool;
  os_is_file : path → bool;
  os_listdir : path → exn + list string
}.

End OSys.

(** ** A directory tree, for the calls that change the file system *)

Module FS.
Import PurePath Effects OSys.

#[warnings="-register-all"]
Inductive node := File | Dir (entries : list (string * node)).

Record fs := { tree : node; cwd : list string }.

Fixpoint get (nm : string) (es : list (string * node)) : option node :=
  match es with
  | [] => None
  | (k, n) :: es' => if String.eqb k nm then Some n else get nm es'
  end.

Fixpoint set (nm : string) (n : node) (es : list (string * node)) : list (string * node) :=
  match es with
  | [] => [(nm, n)]
  | (k, n0) :: es' => if String.eqb k nm then (k, n) :: es' else (k, n0) :: set nm n es'
  end.

(** the absolute components a path denotes *)
Definition resolve (f : fs) (p : path) : list string :=
  match root p with
  | EmptyString => cwd f ++ tail p
  | _ => tail p
  end.

(** [stat]: the node at the end of a walk from [n] *)
Fixpoint walk (n : node) (p : list string) : errno + node :=
  match p with
  | [] => inr n
  | c :: p' =>
      match n with
      | File => inl ENOTDIR
      | Dir es =>
          match get c es with
          | Some n' => walk n' p'
          | None => inl ENOENT
          end
      end
  end.

Definition stat (f : fs) (p : path) : errno + node := walk (tree f) (resolve f p).

(** [Path.exists], [Path.is_dir], [Path.is_file]: false on a failed [stat] *)
Definition exists_ (f : fs) (p : path) : bool :=
  match stat f p with inr _ => true | inl _ => false end.

Definition dir_at (n : node) (q : list string) : bool :=
  match walk n q with inr (Dir _) => true | _ => false end.

Definition file_at (n : node) (q : list string) : bool :=
  match walk n q with inr File => true | _ => false end.

Definition is_dir (f : fs) (p : path) : bool := dir_at (tree f) (resolve f p).

Definition is_file (f : fs) (p : path) : bool := file_at (tree f) (resolve f p).

(** the prefixes of a list of components, the shortest first *)
Fixpoint inits (l : list string) : list (list string) :=
  [] :: match l with
        | [] => []
        | c :: l' => map (cons c) (inits l')
        end.

(** A regular file stands at the path or at one of its ancestors.  (A
    definition to state when a directory can be made.) *)
Definition obstructed (f : fs) (p : path) : bool :=
  existsb (file_at (tree f)) (inits (resolve f p)).

(** [os.listdir] *)
Definition listdir (f : fs) (p : path) : exn + list string :=
  match stat f p with
  | inr (Dir es) => inr (map fst es)
  | inr File => inl (OSError ENOTDIR (str p))
  | inl e => inl (OSError e (str p))
  end.

(** the tree after [mkdir] of the components [p] below [n] *)
Fixpoint mkdir_at (n : node) (p : list string) : errno + node :=
  match p with
  | [] => inl EEXIST
  | c :: p' =>
      match n with
      | File => inl ENOTDIR
      | Dir es =>
          match get c es, p' with
          | None, [] => inr (Dir (es ++ [(c, Dir [])]))
          | None, _ :: _ => inl ENOENT
          | Some n', _ =>
              match mkdir_at n' p' with
              | inr n'' => inr (Dir (set c n'' es))
              | inl e => inl e
              end
          end
      end
  end.

(** [os.mkdir] *)
Definition os_mkdir (p : path) (f : fs) : errno + fs :=
  match mkdir_at (tree f) (resolve f p) with
  | inr t => inr {| tree := t; cwd := cwd f |}
  | inl e => inl e
  end.

(** [Path.mkdir(parents=False, exist_ok=exist_ok)]:
[[
    try: os.mkdir(self, mode)
    except FileNotFoundError: raise
    except OSError:
        if not exist_ok or not self.is_dir(): raise
]] *)
Definition mkdir_no_parents (exist_ok : bool) (p : path) (f : fs) : exn + fs :=
  match os_mkdir p f with
  | inr f' => inr f'
  | inl ENOENT => inl (OSError ENOENT (str p))
  | inl e => if negb exist_ok || negb (is_dir f p) then inl (OSError e (str p)) else inr f
  end.

(** [Path.mkdir(parents=True, exist_ok=exist_ok)] of the path with root [rt]
    and the components [rev rtail]:
[[
    except FileNotFoundError:
        if not parents or self.parent == self: raise
        self.parent.mkdir(parents=True, exist_ok=True)
        self.mkdir(mode, parents=False, exist_ok=exist_ok)
]] *)
Fixpoint mkdir_parents (rt : string) (rtail : list string) (exist_ok : bool) (f : fs)
  : exn + fs :=
  let p := {| root := rt; tail := rev rtail |} in
  match os_mkdir p f with
  | inr f' => inr f'
  | inl ENOENT =>
      match rtail with
      | [] => inl (OSError ENOENT (str p))
      | _ :: rparent =>
          match mkdir_parents rt rparent true f with
          | inr f1 => mkdir_no_parents exist_ok p f1
          | inl e => inl e
          end
      end
  | inl e => if negb exist_ok || negb (is_dir f p) then inl (OSError e (str p)) else inr f
  end.

(** [Path.mkdir(parents=parents, exist_ok=exist_ok)] *)
Definition mkdir (p : path) (parents exist_ok : bool) (f : fs) : exn + fs :=
  if parents then mkdir_parents (root p) (rev (tail p)) exist_ok f
  else mkdir_no_parents exist_ok p f.

(** [f'] is [f] with the directory at [q] made: [q] is a directory, the
    regular files are the same, the directories are still there, and nothing
    changed if [q] was a directory already. *)
Definition made (f f' : fs) (q : list string) : Prop :=
  cwd f' = cwd f
  ∧ dir_at (tree f') q = true
  ∧ (∀ r, file_at (tree f') r = file_at (tree f) r)
  ∧ (∀ r, dir_at (tree f) r = true → dir_at (tree f') r = true)
  ∧ (dir_at (tree f) q = true → f' = f).

(** the read-only interface of a tree *)
Definition os_of (f : fs) : OS :=
  {| os_exists := exists_ f; os_is_file := is_file f; os_listdir := listdir f |}.

End FS.

(** ** config/settings.py *)

Module Settings.
Import PurePath Effects FS.

(** [Settings.ensure_directory_exists], the validator of [vector_store_path]
    and [upload_directory]: the file system after the call and the value
    returned, or the exception raised. *)
Definition ensure_directory_exists (v : string) (f : fs) : exn + (fs * string) :=
  let path := Path v in
  match mkdir path true true f with
  | inr f' => inr (f', str path)
  | inl e => inl e
  end.

(** [Settings.max_file_size_bytes] *)
Definition max_file_size_bytes (max_file_size_mb : Z) : Z :=
  (max_file_size_mb * 1024 * 1024)%Z.

End Settings.

(** ** src/core/document_processor.py *)

Module DocProc.
Import PurePath Effects OSys.

(** a metadata value: a string, or a number such as a page index *)
Inductive value := VStr (s : string) | VInt (n : Z).

(** [langchain.schema.Document] *)
Record Document := { page_content : string; metadata : gmap string value }.

(** [d.update(kvs)] on a metadata dict *)
Definition update (kvs : list (string * value)) (d : gmap string value) : gmap string value :=
  foldl (λ m kv, <[kv.1 := kv.2]> m) d kvs.

(** the loader classes of [langchain_community.document_loaders] *)
Inductive loader_class :=
  PyPDFLoader | TextLoader | Docx2txtLoader | UnstructuredMarkdownLoader.

(** A dict literal with string keys, in insertion order. *)
Fixpoint dict_get {V} (k : string) (d : list (string * V)) : option V :=
  match d with
  | [] => None
  | (k', v) :: d' => if String.eqb k' k then Some v else dict_get k d'
  end.

(** [k in d] *)
Definition dict_mem {V} (k : string) (d : list (string * V)) : bool :=
  match dict_get k d with Some _ => true | None => false end.

(** [list(d.keys())] *)
Definition dict_keys {V} (d : list (string * V)) : list string := map fst d.

(** the configuration [RecursiveCharacterTextSplitter] is built with
    ([length_function] is [len]) *)
Record RecursiveCharacterTextSplitter := {
  ts_chunk_size : Z;
  ts_chunk_overlap : Z;
  ts_separators : list string
}.

Record DocumentProcessor := {
  chunk_size : Z;
  chunk_overlap : Z;
  text_splitter : RecursiveCharacterTextSplitter;
  supported_extensions : list (string * loader_class)
}.

Definition newline : string := String "010"%char EmptyString.

(** [DocumentProcessor.__init__] *)
Definition init (chunk_size chunk_overlap : Z) : DocumentProcessor :=
  {| chunk_size := chunk_size;
     chunk_overlap := chunk_overlap;
     text_splitter :=
       {| ts_chunk_size := chunk_size;
          ts_chunk_overlap := chunk_overlap;
          ts_separators := [newline +:+ newline; newline; ". "; "! "; "? "; " "; ""] |};
     supported_extensions :=
       [(".pdf", PyPDFLoader); (".txt", TextLoader); (".docx", Docx2txtLoader);
        (".doc", UnstructuredMarkdownLoader)] |}.

(** [DocumentProcessor()], with the default [chunk_size=1000] and
    [chunk_overlap=200] *)
Definition default : DocumentProcessor := init 1000 200.

Section Processor.

(** the file system the calls run on *)
Variable os : OS.

(** [loader_class(path).load()] of a third-party loader on that file system:
    the records it returns or the exception it raises *)
Variable load : loader_class → string → exn + list Document.

(** [splitter.split_text(text)] of the third-party splitter *)
Variable split_text : RecursiveCharacterTextSplitter → string → list string.

(** the three keys [load_document] stamps on every record *)
Definition stamp (file_path : path) (file_extension : string) : list (string * value) :=
  [("source", VStr (name file_path));
   ("file_path", VStr (str file_path));
   ("file_type", VStr file_extension)].

(** the body of the loop over the loaded records:
    [doc.metadata.update({"source": ..., "file_path": ..., "file_type": ...})] *)
Definition stamp_document (file_path : path) (file_extension : string) (doc : Document)
  : Document :=
  {| page_content := page_content doc;
     metadata := update (stamp file_path file_extension) (metadata doc) |}.

(** [DocumentProcessor.load_document] *)
Definition load_document (self : DocumentProcessor) (file_path : string)
  : M (list Document) :=
  let file_path := Path file_path in
  if negb (os_exists os file_path) then
    logger ERROR (File_not_found (str file_path));;
    raise (FileNotFoundError ("Document not found: " +:+ str file_path))
  else
    let file_extension := Py.lower (suffix file_path) in
    if negb (dict_mem file_extension (supported_extensions self)) then
      logger ERROR (Unsupported_file_type file_extension);;
      raise (ValueError ("Unsupported file type: " +:+ file_extension +:+ ", "
                         +:+ "supported types are: "
                         +:+ Py.repr_list (dict_keys (supported_extensions self))))
    else
      except
        (loader_class ←
           match dict_get file_extension (supported_extensions self) with
           | Some c => mret c
           | None => raise (KeyError file_extension)
           end;
         documents ← call (load loader_class (str file_path));
         let documents := map (stamp_document file_path file_extension) documents in
         logger INFO (Successfully_loaded_document (name file_path) (length documents));;
         mret documents)
        (λ e,
           logger ERROR (Error_loading_document (name file_path) e);;
           raise e).

(** Modelled from the spec: [text_splitter.split_documents], the method of
    langchain's [TextSplitter] that the repository calls and does not contain.
    The spec: it "applies the configured splitter to every record, producing a
    new sequence of smaller document records, each inheriting the parent's
    metadata and a slice of its content". *)
Definition TextSplitter_split_documents (ts : RecursiveCharacterTextSplitter)
    (documents : list Document) : list Document :=
  flat_map
    (λ doc, map (λ chunk, {| page_content := chunk; metadata := metadata doc |})
                (split_text ts (page_content doc)))
    documents.

(** [sum(len(chunk.page_content) for chunk in chunks)] *)
Definition total_characters (chunks : list Document) : nat :=
  foldr (λ chunk n, Py.len (page_content chunk) + n) 0 chunks.

(** [DocumentProcessor.split_documents]; the average chunk size is only
    logged, as the quotient of the two numbers [Created_chunks] carries. *)
Definition split_documents (self : DocumentProcessor) (documents : list Document)
  : M (list Document) :=
  match documents with
  | [] =>
      logger WARNING No_documents_to_split;;
      mret []
  | _ :: _ =>
      logger INFO (Chunking_documents (chunk_size self) (chunk_overlap self));;
      let chunks := TextSplitter_split_documents (text_splitter self) documents in
      logger INFO (Created_chunks (length chunks) (length documents) (total_characters chunks));;
      mret chunks
  end.

(** the loop of [process_directory] over the children still to visit *)
Fixpoint process_files (self : DocumentProcessor) (files : list path)
    (all_documents : list Document) : M (list Document) :=
  match files with
  | [] => mret all_documents
  | file_path :: files' =>
      if os_is_file os file_path
         && dict_mem (Py.lower (suffix file_path)) (supported_extensions self)
      then
        all_documents ←
          except
            (documents ← load_document self (str file_path);
             mret (all_documents ++ documents))
            (λ e,
               logger ERROR (Failed_to_process_file (name file_path) e);;
               mret all_documents);
        process_files self files' all_documents
      else process_files self files' all_documents
  end.

(** [DocumentProcessor.process_directory] *)
Definition process_directory (self : DocumentProcessor) (directory_path : string)
  : M (list Document) :=
  let directory := Path directory_path in
  if negb (os_exists os directory) then
    logger ERROR (Directory_not_found directory_path);;
    raise (FileNotFoundError ("Directory not found: " +:+ directory_path))
  else
    names ← call (os_listdir os directory);
    all_documents ← process_files self (map (child directory) names) [];
    logger INFO (Total_documents_loaded (length all_documents));;
    mret all_documents.

(** The records [process_directory] keeps from one child of the directory:
    those of a successful [load_document], for a regular file with a
    supported extension; none otherwise.  (A definition to state the result
    of the loop; the code has no such function.) *)
Definition records_kept (self : DocumentProcessor) (file_path : path) : list Document :=
  if os_is_file os file_path
     && dict_mem (Py.lower (suffix file_path)) (supported_extensions self)
  then match outcome (load_document self (str file_path)) with
       | inr documents => documents
       | inl _ => []
       end
  else [].

End Processor.

End DocProc.

(** ** A sample environment

    A working directory [/srv/app] with a [docs] folder: a readable text
    file, a PDF whose parser fails, a spreadsheet, an upper-case [.PDF], a
    [.doc] file and a sub-directory. *)

Module Sample.
Import PurePath Effects OSys FS DocProc.

Definition docs : node :=
  Dir [("a.txt", File); ("b.pdf", File); ("notes.csv", File);
       ("Report.PDF", File); ("old.doc", File); ("archive.txt", Dir [])].

Definition disk : fs :=
  {| tree := Dir [("srv", Dir [("app", Dir [("docs", docs);
                                            ("data", Dir [("uploads", Dir [])])])])];
     cwd := ["srv"; "app"] |}.

(** one record per call, carrying the loader's own [source]; the PDF loader
    yields a record per page and fails on [docs/b.pdf] *)
Definition load (c : loader_class) (p : string) : exn + list Document :=
  let page (n : Z) (text : string) :=
    {| page_content := text; metadata := {[ "source" := VStr p; "page" := VInt n ]} |} in
  match c with
  | PyPDFLoader =>
      if String.eqb p "docs/b.pdf" then inl (LibraryError "PdfReadError" "EOF marker not found")
      else inr [page 0%Z "first page"; page 1%Z "second page"]
  | TextLoader => inr [ {| page_content := "plain text"; metadata := {[ "source" := VStr p ]} |} ]
  | Docx2txtLoader => inr [ {| page_content := "word text"; metadata := {[ "source" := VStr p ]} |} ]
  | UnstructuredMarkdownLoader =>
      inr [ {| page_content := "marked text"; metadata := {[ "source" := VStr p ]} |} ]
  end.

(** a splitter that cuts at every space *)
Definition split_text (ts : RecursiveCharacterTextSplitter) (text : string) : list string :=
  Py.split " " text.

End Sample.

(** ** A second sample: a folder without a loadable file

    [inbox] holds a dot-file, a name without a dot, a name that ends in a
    dot, a spreadsheet and a sub-directory named like a text file. *)

Module Inbox.
Import PurePath Effects OSys FS DocProc.

Definition disk : fs :=
  {| tree := Dir [("srv", Dir [("app", Dir [("inbox",
              Dir [(".txt", File); ("README", File); ("draft.", File);
                   ("table.csv", File); ("old.txt", Dir [])])])])];
     cwd := ["srv"; "app"] |}.

End Inbox.

(** ** The runtime's calls, with their failures

    [str.lower] is Unicode's, so it is a parameter here.  [Path.exists] and
    [Path.is_file] answer [False] where [stat] fails with [ENOENT],
    [ENOTDIR], [EBADF] or [ELOOP], and raise every other [OSError] (a
    [PermissionError], say); both stand outside any [try] in the processor. *)

Module Runtime.
Import PurePath Effects OSys.

Record RT := {
  str_lower : string → string;
  path_exists : path → exn + bool;
  path_is_file : path → exn + bool;
  path_iterdir : path → exn + list string
}.

(** the runtime over an [OS] whose calls always answer, on ASCII names *)
Definition of_OS (os : OS) : RT :=
  {| str_lower := Py.lower;
     path_exists := λ p, inr (os_exists os p);
     path_is_file := λ p, inr (os_is_file os p);
     path_iterdir := os_listdir os |}.

End Runtime.

(** ** src/core/document_processor.py, over the runtime's calls

    The methods of [DocProc] again, line by line, where the lowering is the
    runtime's and a file-system call may raise. *)

Module DocProcR.
Import PurePath Effects OSys Runtime DocProc.

Section Processor.

Variable rt : RT.

(** [loader_class(path).load()] of a third-party loader *)
Variable load : loader_class → string → exn + list Document.

(** [DocumentProcessor.load_document] *)
Definition load_document (self : DocumentProcessor) (file_path : string)
  : M (list Document) :=
  let file_path := Path file_path in
  found ← call (path_exists rt file_path);
  if negb found then
    logger ERROR (File_not_found (str file_path));;
    raise (FileNotFoundError ("Document not found: " +:+ str file_path))
  else
    let file_extension := str_lower rt (suffix file_path) in
    if negb (dict_mem file_extension (supported_extensions self)) then
      logger ERROR (Unsupported_file_type file_extension);;
      raise (ValueError ("Unsupported file type: " +:+ file_extension +:+ ", "
                         +:+ "supported types are: "
                         +:+ Py.repr_list (dict_keys (supported_extensions self))))
    else
      except
        (loader_class ←
           match dict_get file_extension (supported_extensions self) with
           | Some c => mret c
           | None => raise (KeyError file_extension)
           end;
         documents ← call (load loader_class (str file_path));
         let documents := map (stamp_document file_path file_extension) documents in
         logger INFO (Successfully_loaded_document (name file_path) (length documents));;
         mret documents)
        (λ e,
           logger ERROR (Error_loading_document (name file_path) e);;
           raise e).

(** the loop of [process_directory] over the children still to visit;
    [file_path.is_file()] is called before the [try] *)
Fixpoint process_files (self : DocumentProcessor) (files : list path)
    (all_documents : list Document) : M (list Document) :=
  match files with
  | [] => mret all_documents
  | file_path :: files' =>
      is_file ← call (path_is_file rt file_path);
      if is_file
         && dict_mem (str_lower rt (suffix file_path)) (supported_extensions self)
      then
        all_documents ←
          except
            (documents ← load_document self (str file_path);
             mret (all_documents ++ documents))
            (λ e,
               logger ERROR (Failed_to_process_file (name file_path) e);;
               mret all_documents);
        process_files self files' all_documents
      else process_files self files' all_documents
  end.

(** [DocumentProcessor.process_directory] *)
Definition process_directory (self : DocumentProcessor) (directory_path : string)
  : M (list Document) :=
  let directory := Path directory_path in
  found ← call (path_exists rt directory);
  if negb found then
    logger ERROR (Directory_not_found directory_path);;
    raise (FileNotFoundError ("Directory not found: " +:+ directory_path))
  else
    names ← call (path_iterdir rt directory);
    all_documents ← process_files self (map (child directory) names) [];
    logger INFO (Total_documents_loaded (length all_documents));;
    mret all_documents.

(** The records [process_directory] keeps from one child whose [is_file()]
    answered.  (A definition to state the result of the loop.) *)
Definition records_kept (self : DocumentProcessor) (file_path : path) : list Document :=
  match path_is_file rt file_path with
  | inr true =>
      if dict_mem (str_lower rt (suffix file_path)) (supported_extensions self)
      then match outcome (load_document self (str file_path)) with
           | inr documents => documents
           | inl _ => []
           end
      else []
  | _ => []
  end.

(** The records the loop logs for one child whose [is_file()] answered.  (A
    definition to state the log of the loop.) *)
Definition records_logged (self : DocumentProcessor) (file_path : path) : list log_record :=
  match path_is_file rt file_path with
  | inr true =>
      if dict_mem (str_lower rt (suffix file_path)) (supported_extensions self)
      then logs (load_document self (str file_path))
           ++ match outcome (load_document self (str file_path)) with
              | inl e => [(ERROR, Failed_to_process_file (name file_path) e)]
              | inr _ => []
              end
      else []
  | _ => []
  end.

End Processor.

End DocProcR.

(** ** A runtime that cannot classify one entry

    The sample tree, where [is_file()] of [docs/b.pdf] raises
    [PermissionError]: the [stat] of that one file is denied, as an access
    policy on the file or its file system can do, and [Path.is_file] lets
    such an error through. *)

Module Locked.
Import PurePath Effects OSys FS Runtime.

Definition rt : RT :=
  {| str_lower := Py.lower;
     path_exists := λ p, inr (exists_ Sample.disk p);
     path_is_file := λ p,
       if String.eqb (str p) "docs/b.pdf" then inl (OSError EACCES "docs/b.pdf")
       else inr (is_file Sample.disk p);
     path_iterdir := listdir Sample.disk |}.

End Locked.

(** ** A runtime with accented names

    A folder with the file [x.ÉÉ], and a lowering that knows the ASCII
    letters and the capitals of Latin-1 (in UTF-8 the byte 195 followed by a
    byte from 128 to 158 other than 151, which moves up by 32). *)

Module Latin.
Import PurePath Effects OSys FS Runtime.

Definition is_capital (a b : ascii) : bool :=
  (nat_of_ascii a =? 195)%nat
  && (128 <=? nat_of_ascii b)%nat && (nat_of_ascii b <=? 158)%nat
  && negb (nat_of_ascii b =? 151)%nat.

Fixpoint lower (s : string) : string :=
  match s with
  | EmptyString => EmptyString
  | String a t =>
      match t with
      | String b t' =>
          if is_capital a b
          then String a (String (ascii_of_nat (nat_of_ascii b + 32)) (lower t'))
          else String (Py.lower_ascii a) (lower t)
      | EmptyString => String (Py.lower_ascii a) EmptyString
      end
  end.

Definition disk : fs :=
  {| tree := Dir [("srv", Dir [("app", Dir [("docs", Dir [("x.ÉÉ", File)])])])];
     cwd := ["srv"; "app"] |}.

Definition rt : RT :=
  {| str_lower := lower;
     path_exists := λ p, inr (exists_ disk p);
     path_is_file := λ p, inr (is_file disk p);
     path_iterdir := listdir disk |}.

End Latin.

(** * Properties *)

(** ** Paths *)

Module PathSpec.
Import PurePath.

(** *** [split] and [join] *)

Lemma split_not_nil (s : string) : Py.split "/" s ≠ [].
Proof. destruct s as [|a s]; cbn [Py.split]; [done|]. by destruct (Ascii.eqb a "/"), (Py.split "/" s). Qed.

(** the strings [split] gives hold no separator *)
Lemma split_parts (s : string) :
  Forall (λ x, Py.split "/" x = [x]) (Py.split "/" s).
Proof.
  induction s as [|a s IH]; cbn [Py.split]; [by constructor|].
  destruct (Ascii.eqb a "/") eqn:Ha; [by constructor|].
  destruct (Py.split "/" s) as [|w ws]; [by constructor; [cbn [Py.split]; rewrite Ha|]|].
  inversion_clear IH as [|? ? Hw Hws]. constructor; [|done].
  cbn [Py.split]. by rewrite Ha, Hw.
Qed.

Lemma split_cons_part (x s : string) :
  Py.split "/" x = [x] →
  Py.split "/" (x +:+ String "/" s) = x :: Py.split "/" s.
Proof.
  induction x as [|a x IH]; [done|]. intros Hx.
  change (String a x +:+ String "/" s) with (String a (x +:+ String "/" s)).
  cbn [Py.split] in *. destruct (Ascii.eqb a "/"); [done|].
  destruct (Py.split "/" x) as [|w ws] eqn:Hw; [by destruct (split_not_nil x)|].
  injection Hx as -> ->. by rewrite IH.
Qed.

Lemma split_join (l : list string) :
  l ≠ [] → Forall (λ x, Py.split "/" x = [x]) l → Py.split "/" (Py.join "/" l) = l.
Proof.
  intros Hne Hl. induction Hl as [|x l Hx Hl IH]; [done|].
  destruct l as [|y l]; [done|].
  change (Py.join "/" (x :: y :: l)) with (x +:+ String "/" (Py.join "/" (y :: l))).
  rewrite split_cons_part by done. by rewrite IH.
Qed.

(** *** Paths in normal form *)

Lemma splitroot_root (s : string) : (splitroot s).1 ∈ [""; "/"; "//"].
Proof.
  unfold splitroot. destruct s as [|a [|b [|c s]]];
    repeat match goal with |- context [Ascii.eqb ?x ?y] => destruct (Ascii.eqb x y) end;
    cbn [negb fst]; set_solver.
Qed.

Lemma Path_normal (s : string) : normal (Path s).
Proof.
  unfold Path. pose proof (splitroot_root s) as Hr.
  destruct (splitroot s) as [rt rel]. split; [exact Hr|]. cbn [tail].
  apply Forall_forall. intros x [Hx Hin]%list_elem_of_filter. split; [done|].
  by eapply (proj1 (Forall_forall _ _) (split_parts rel)).
Qed.

Lemma component_head (x : string) :
  component x → ∃ a x', x = String a x' ∧ Ascii.eqb a "/" = false.
Proof.
  intros [Hp Hs]. destruct x as [|a x]; [done|]. exists a, x. split; [done|].
  cbn [Py.split] in Hs. by destruct (Ascii.eqb a "/").
Qed.

Lemma filter_components (l : list string) :
  Forall component l → filter (λ x, is_part x = true) l = l.
Proof.
  intros Hl. induction Hl as [|x l [Hx _] Hl IH]; [done|].
  rewrite filter_cons_True by done. by rewrite IH.
Qed.

Lemma splitroot_component (rt : string) (a : ascii) (r : string) :
  rt ∈ [""; "/"; "//"] → Ascii.eqb a "/" = false →
  splitroot (rt +:+ String a r) = (rt, String a r).
Proof.
  rewrite !elem_of_cons, elem_of_nil. intros [->|[->|[->|[]]]] Ha;
    cbv [String.append splitroot]; by rewrite ?Ascii.eqb_refl, ?Ha.
Qed.

(** [Path(str(p))] is [p] for a path in normal form *)
Lemma Path_str (p : path) : normal p → Path (str p) = p.
Proof.
  destruct p as [rt t]. intros [Hrt Ht]. cbn [root tail] in *.
  destruct t as [|x t].
  - rewrite !elem_of_cons, elem_of_nil in Hrt.
    by destruct Hrt as [->|[->|[->|[]]]].
  - assert (Hs : Py.split "/" (Py.join "/" (x :: t)) = x :: t).
    { apply split_join; [done|]. eapply Forall_impl; [exact Ht|]. by intros ? [_ ?]. }
    assert (Hf := filter_components _ Ht).
    inversion_clear Ht as [|? ? Hx _].
    destruct (component_head x Hx) as (a & x' & -> & Ha).
    assert (Hj : ∃ r, Py.join "/" (String a x' :: t) = String a r).
    { destruct t; cbn; by eexists. }
    destruct Hj as [r Hj].
    assert (Hstr : str {| root := rt; tail := String a x' :: t |}
                   = rt +:+ Py.join "/" (String a x' :: t)).
    { unfold str. cbn [root tail]. by destruct rt. }
    unfold Path. rewrite Hstr, Hj, splitroot_component by done.
    by rewrite <-Hj, Hs, Hf.
Qed.


End PathSpec.

(** ** The document processor *)

Module DocProcSpec.
Import PurePath Effects OSys DocProc.

Lemma dict_mem_get {V} (k : string) (d : list (string * V)) :
  dict_mem k d = true ↔ is_Some (dict_get k d).
Proof.
  unfold dict_mem. destruct (dict_get k d); split; intros H;
    first [done | by eexists | by destruct H].
Qed.

Lemma dict_get_elem_of {V} (k : string) (v : V) (d : list (string * V)) :
  dict_get k d = Some v → (k, v) ∈ d.
Proof.
  induction d as [|[k' v'] d IH]; simpl; [done|].
  destruct (String.eqb_spec k' k) as [->|Hne].
  - intros [= ->]. left.
  - intros H. right. by apply IH.
Qed.

(** the keys of the table are the four extensions, for every chunk
    configuration *)
Lemma supported_extensions_keys (cs co : Z) :
  dict_keys (supported_extensions (init cs co)) = [".pdf"; ".txt"; ".docx"; ".doc"].
Proof. reflexivity. Qed.

Lemma dict_mem_keys {V} (k : string) (d : list (string * V)) :
  dict_mem k d = true ↔ k ∈ dict_keys d.
Proof.
  unfold dict_mem, dict_keys.
  induction d as [|[k' v'] d IH]; cbn [dict_get map fst].
  - split; [done | by intros ?%elem_of_nil].
  - rewrite elem_of_cons. destruct (String.eqb_spec k' k) as [->|Hne].
    + split; [by left | done].
    + rewrite IH. split; [by right | by intros [->|?]].
Qed.

Lemma not_supported (self : DocumentProcessor) (ext : string) :
  ext ∉ dict_keys (supported_extensions self) →
  dict_mem ext (supported_extensions self) = false.
Proof.
  intros Hnot. destruct (dict_mem ext _) eqn:E; [|done].
  by apply dict_mem_keys in E.
Qed.

Section Correctness.

Context (os : OS) (load : loader_class → string → exn + list Document).
Context (split_text : RecursiveCharacterTextSplitter → string → list string).

Abbreviation load_document := (DocProc.load_document os load).
Abbreviation process_directory := (DocProc.process_directory os load).
Abbreviation process_files := (DocProc.process_files os load).
Abbreviation split_documents := (DocProc.split_documents split_text).
Abbreviation records_kept := (DocProc.records_kept os load).

(** what [load_document] does on a path that does not exist *)
Lemma load_document_missing (self : DocumentProcessor) (file_path : string) :
  os_exists os (Path file_path) = false →
  load_document self file_path =
    ([(ERROR, File_not_found (str (Path file_path)))],
     inl (FileNotFoundError ("Document not found: " +:+ str (Path file_path)))).
Proof. intros H. unfold DocProc.load_document. rewrite H. reflexivity. Qed.

(** C2: [load_document] raises [FileNotFoundError] whenever the path does not
    exist, and [process_directory] raises [FileNotFoundError] whenever the
    directory does not exist; neither call returns records. *)
Theorem not_found_raises (self : DocumentProcessor) (p : string) :
  os_exists os (Path p) = false →
  outcome (load_document self p)
    = inl (FileNotFoundError ("Document not found: " +:+ str (Path p)))
  ∧ outcome (process_directory self p)
    = inl (FileNotFoundError ("Directory not found: " +:+ p))
  ∧ (∀ documents, outcome (load_document self p) ≠ inr documents)
  ∧ (∀ documents, outcome (process_directory self p) ≠ inr documents).
Proof.
  intros H.
  assert (Hd : process_directory self p =
                 ([(ERROR, Directory_not_found p)],
                  inl (FileNotFoundError ("Directory not found: " +:+ p)))).
  { unfold DocProc.process_directory. rewrite H. reflexivity. }
  rewrite load_document_missing, Hd by done.
  repeat split; done.
Qed.

(** *** Effects of the monad *)

Lemma outcome_bind {A B} (m : M A) (k : A → M B) :
  outcome (m ≫= k) = match outcome m with
                      | inl e => inl e
                      | inr a => outcome (k a)
                      end.
Proof.
  destruct m as [l [e|a]]; [reflexivity|].
  unfold outcome, mbind, M_bind. cbn [snd]. by destruct (k a).
Qed.

Lemma outcome_except {A} (body : M A) (handler : exn → M A) :
  outcome (except body handler) = match outcome body with
                                  | inl e => outcome (handler e)
                                  | inr a => inr a
                                  end.
Proof.
  destruct body as [l [e|a]]; [|reflexivity].
  unfold outcome, except. cbn [snd]. by destruct (handler e).
Qed.

(** *** [load_document] *)

(** what [load_document] does on an existing path with a supported
    extension: the loader of the table runs, its records are stamped, and its
    failure is logged and raised again *)
Lemma load_document_supported (self : DocumentProcessor) (file_path : string)
    (cls : loader_class) :
  os_exists os (Path file_path) = true →
  dict_get (Py.lower (suffix (Path file_path))) (supported_extensions self) = Some cls →
  load_document self file_path =
    match load cls (str (Path file_path)) with
    | inr loaded =>
        ([(INFO, Successfully_loaded_document (name (Path file_path)) (length loaded))],
         inr (map (stamp_document (Path file_path) (Py.lower (suffix (Path file_path))))
                  loaded))
    | inl e => ([(ERROR, Error_loading_document (name (Path file_path)) e)], inl e)
    end.
Proof.
  intros Hex Hget. unfold DocProc.load_document, dict_mem.
  rewrite Hex, Hget. cbn [negb].
  cbv [mbind mret M_bind M_ret call except logger raise].
  destruct (load cls _) as [e|loaded]; [reflexivity|].
  by rewrite length_map.
Qed.

(** a call that returns did so through a loader of the table *)
Lemma load_document_returns (self : DocumentProcessor) (file_path : string)
    (documents : list Document) :
  outcome (load_document self file_path) = inr documents →
  ∃ cls loaded,
    os_exists os (Path file_path) = true
    ∧ dict_get (Py.lower (suffix (Path file_path))) (supported_extensions self) = Some cls
    ∧ load cls (str (Path file_path)) = inr loaded
    ∧ documents = map (stamp_document (Path file_path) (Py.lower (suffix (Path file_path))))
                      loaded.
Proof.
  destruct (os_exists os (Path file_path)) eqn:Hex.
  2: { rewrite load_document_missing by done. discriminate. }
  destruct (dict_get (Py.lower (suffix (Path file_path))) (supported_extensions self))
    as [cls|] eqn:Hget.
  - rewrite (load_document_supported _ _ cls) by done.
    destruct (load cls _) as [e|loaded] eqn:Hload; [discriminate|].
    intros [= <-]. by exists cls, loaded.
  - unfold DocProc.load_document, dict_mem. rewrite Hex, Hget. discriminate.
Qed.

Lemma stamp_document_metadata (p : path) (ext : string) (doc : Document) :
  metadata (stamp_document p ext doc) !! "source" = Some (VStr (name p))
  ∧ metadata (stamp_document p ext doc) !! "file_path" = Some (VStr (str p))
  ∧ metadata (stamp_document p ext doc) !! "file_type" = Some (VStr ext)
  ∧ (∀ k, k ∉ ["source"; "file_path"; "file_type"] →
          metadata (stamp_document p ext doc) !! k = metadata doc !! k)
  ∧ dom (metadata doc) ⊆ dom (metadata (stamp_document p ext doc)).
Proof.
  unfold stamp_document, update, stamp. cbn [metadata foldl fst snd].
  repeat split.
  - by simplify_map_eq.
  - by simplify_map_eq.
  - by simplify_map_eq.
  - intros k Hk. rewrite !lookup_insert_ne; [done|..]; intros <-; apply Hk; set_solver.
  - rewrite !dom_insert_L. set_solver.
Qed.

(** C4: the loader is chosen by the lowercased extension from the table of
    four entries: [.pdf] the PDF loader, [.txt] the plain-text loader,
    [.docx] the DOCX loader and [.doc] the Markdown loader.  The records (or
    the failure) of the call are those of that loader on the path. *)
Theorem loader_selected_by_extension (cs co : Z) (file_path ext : string)
    (cls : loader_class) :
  os_exists os (Path file_path) = true →
  Py.lower (suffix (Path file_path)) = ext →
  (ext, cls) ∈ [(".pdf", PyPDFLoader); (".txt", TextLoader); (".docx", Docx2txtLoader);
                (".doc", UnstructuredMarkdownLoader)] →
  supported_extensions (init cs co)
    = [(".pdf", PyPDFLoader); (".txt", TextLoader); (".docx", Docx2txtLoader);
       (".doc", UnstructuredMarkdownLoader)]
  ∧ outcome (load_document (init cs co) file_path)
    = match load cls (str (Path file_path)) with
      | inr loaded => inr (map (stamp_document (Path file_path) ext) loaded)
      | inl e => inl e
      end.
Proof.
  intros Hex Hext Hin. split; [reflexivity|].
  assert (Hget : dict_get ext (supported_extensions (init cs co)) = Some cls).
  { rewrite !elem_of_cons, elem_of_nil in Hin.
    destruct Hin as [[= -> ->]|[[= -> ->]|[[= -> ->]|[[= -> ->]|[]]]]]; reflexivity. }
  rewrite (load_document_supported _ _ cls) by (by rewrite ?Hext).
  rewrite Hext. by destruct (load cls _).
Qed.

(** C5: every record of a successful [load_document] is a record of the
    loader (as many as the loader gave, with its content) whose metadata has
    [source] the file's name, [file_path] the path string and [file_type] the
    lowercased extension; the other keys of the loader keep their values, and
    no key of the loader is lost. *)
Theorem load_document_stamps_metadata (self : DocumentProcessor) (file_path : string)
    (documents : list Document) :
  outcome (load_document self file_path) = inr documents →
  ∃ cls loaded,
    (Py.lower (suffix (Path file_path)), cls) ∈ supported_extensions self
    ∧ load cls (str (Path file_path)) = inr loaded
    ∧ length documents = length loaded
    ∧ ∀ i doc, documents !! i = Some doc →
        ∃ doc0, loaded !! i = Some doc0
          ∧ page_content doc = page_content doc0
          ∧ metadata doc !! "source" = Some (VStr (name (Path file_path)))
          ∧ metadata doc !! "file_path" = Some (VStr (str (Path file_path)))
          ∧ metadata doc !! "file_type" = Some (VStr (Py.lower (suffix (Path file_path))))
          ∧ (∀ k, k ∉ ["source"; "file_path"; "file_type"] →
                  metadata doc !! k = metadata doc0 !! k)
          ∧ dom (metadata doc0) ⊆ dom (metadata doc).
Proof.
  intros (cls & loaded & _ & Hget & Hload & ->)%load_document_returns.
  exists cls, loaded. split; [by apply dict_get_elem_of|].
  split; [done|]. split; [by rewrite length_map|].
  intros i doc Hi. rewrite list_lookup_fmap in Hi.
  destruct (loaded !! i) as [doc0|] eqn:Hi0; [|done].
  injection Hi as <-. exists doc0. split; [done|]. split; [done|].
  apply stamp_document_metadata.
Qed.

(** *** [process_directory] *)

(** the loop adds to the records gathered so far what each child keeps, in
    the order of the children, and never raises *)
Lemma process_files_outcome (self : DocumentProcessor) (files : list path)
    (all_documents : list Document) :
  outcome (process_files self files all_documents)
    = inr (all_documents ++ flat_map (records_kept self) files).
Proof.
  revert all_documents.
  induction files as [|file_path files IH]; intros all_documents.
  - cbn [DocProc.process_files flat_map]. by rewrite app_nil_r.
  - cbn [DocProc.process_files flat_map]. unfold DocProc.records_kept at 1.
    destruct (os_is_file os file_path && _).
    + rewrite outcome_bind, outcome_except, outcome_bind.
      destruct (outcome (load_document self (str file_path))) as [e|documents].
      * rewrite outcome_bind. cbn [outcome logger mret M_ret snd]. by rewrite IH.
      * cbn [outcome mret M_ret snd]. by rewrite IH, app_assoc.
    + by rewrite IH.
Qed.

(** *** [split_documents] *)

(** C7: [split_documents] of the empty sequence returns the empty sequence and
    raises nothing (it logs one warning). *)
Theorem split_documents_empty (self : DocumentProcessor) :
  split_documents self [] = ([(WARNING, No_documents_to_split)], inr []).
Proof. reflexivity. Qed.

(** C10: the existence check comes first.  A path that does not exist fails
    with [FileNotFoundError] whatever its extension, supported or not; so a
    call that ends in a [ValueError], or that logs an unsupported file type,
    was made on a path that exists. *)
Theorem existence_check_first (self : DocumentProcessor) (file_path : string) :
  (os_exists os (Path file_path) = false →
   ∀ supported,
     dict_mem (Py.lower (suffix (Path file_path))) (supported_extensions self) = supported →
     outcome (load_document self file_path)
       = inl (FileNotFoundError ("Document not found: " +:+ str (Path file_path))))
  ∧ (∀ msg, outcome (load_document self file_path) = inl (ValueError msg) →
            os_exists os (Path file_path) = true)
  ∧ (∀ ext, (ERROR, Unsupported_file_type ext) ∈ logs (load_document self file_path) →
            os_exists os (Path file_path) = true).
Proof.
  destruct (os_exists os (Path file_path)) eqn:Hex.
  - repeat split; done.
  - rewrite load_document_missing by done. repeat split.
    + intros msg H. discriminate H.
    + intros ext H. cbn in H. apply list_elem_of_singleton in H. discriminate H.
Qed.

End Correctness.

(** *** The theorems on the sample environment *)

Lemma not_found_raises_witness :
  os_exists (FS.os_of Sample.disk) (Path "docs/missing.txt") = false
  ∧ outcome (load_document (FS.os_of Sample.disk) Sample.load default "docs/missing.txt")
    = inl (FileNotFoundError "Document not found: docs/missing.txt")
  ∧ outcome (process_directory (FS.os_of Sample.disk) Sample.load default "docs/missing.txt")
    = inl (FileNotFoundError "Directory not found: docs/missing.txt").
Proof.
  split; [reflexivity|].
  destruct (not_found_raises (FS.os_of Sample.disk) Sample.load default "docs/missing.txt")
    as (H1 & H2 & _); [reflexivity|].
  split; [exact H1|exact H2].
Defined.

Lemma loader_selected_by_extension_witness :
  os_exists (FS.os_of Sample.disk) (Path "docs/old.doc") = true
  ∧ Py.lower (suffix (Path "docs/old.doc")) = ".doc"
  ∧ outcome (load_document (FS.os_of Sample.disk) Sample.load (init 1000 200) "docs/old.doc")
    = match Sample.load UnstructuredMarkdownLoader "docs/old.doc" with
      | inr loaded => inr (map (stamp_document (Path "docs/old.doc") ".doc") loaded)
      | inl e => inl e
      end.
Proof.
  split; [reflexivity|]. split; [reflexivity|].
  apply (loader_selected_by_extension (FS.os_of Sample.disk) Sample.load 1000 200
           "docs/old.doc" ".doc" UnstructuredMarkdownLoader);
    [reflexivity|reflexivity|].
  do 3 apply list_elem_of_further. apply list_elem_of_here.
Defined.

Lemma load_document_stamps_metadata_witness :
  ∃ documents,
    outcome (load_document (FS.os_of Sample.disk) Sample.load default "docs/Report.PDF")
      = inr documents
    ∧ length documents = 2
    ∧ ∀ (i : nat) doc, documents !! i = Some doc →
        metadata doc !! "source" = Some (VStr "Report.PDF")
        ∧ metadata doc !! "file_path" = Some (VStr "docs/Report.PDF")
        ∧ metadata doc !! "file_type" = Some (VStr ".pdf")
        ∧ metadata doc !! "page" = Some (VInt (Z.of_nat i)).
Proof.
  eexists. split; [reflexivity|]. split; [reflexivity|].
  intros i doc Hi.
  destruct (load_document_stamps_metadata (FS.os_of Sample.disk) Sample.load default
              "docs/Report.PDF" _ eq_refl)
    as (cls & loaded & _ & _ & _ & Hall).
  destruct (Hall i doc Hi) as (doc0 & _ & _ & Hsource & Hpath & Htype & _).
  split; [exact Hsource|]. split; [exact Hpath|]. split; [exact Htype|].
  destruct i as [|[|i]]; [| |discriminate Hi]; injection Hi as <-; reflexivity.
Defined.

Lemma existence_check_first_witness :
  os_exists (FS.os_of Sample.disk) (Path "docs/missing.csv") = false
  ∧ dict_mem (Py.lower (suffix (Path "docs/missing.csv"))) (supported_extensions default)
    = false
  ∧ outcome (load_document (FS.os_of Sample.disk) Sample.load default "docs/missing.csv")
    = inl (FileNotFoundError "Document not found: docs/missing.csv").
Proof.
  split; [reflexivity|]. split; [reflexivity|].
  apply (proj1 (existence_check_first (FS.os_of Sample.disk) Sample.load default
                  "docs/missing.csv") eq_refl false eq_refl).
Defined.

End DocProcSpec.

(** ** The directory tree *)

Module FSSpec.
Import PurePath Effects OSys FS.

(** *** Entries of a directory *)

Lemma get_set_eq (c : string) (n : node) (es : list (string * node)) :
  get c (set c n es) = Some n.
Proof.
  induction es as [|[k n0] es IH]; cbn [set get].
  - by rewrite String.eqb_refl.
  - destruct (String.eqb_spec k c) as [->|Hne]; cbn [get].
    + by rewrite String.eqb_refl.
    + by destruct (String.eqb_spec k c).
Qed.

Lemma get_set_ne (c k : string) (n : node) (es : list (string * node)) :
  k ≠ c → get k (set c n es) = get k es.
Proof.
  intros Hne. induction es as [|[k0 n0] es IH]; cbn [set get].
  - by destruct (String.eqb_spec c k) as [->|].
  - destruct (String.eqb_spec k0 c) as [->|Hc]; cbn [get].
    + by destruct (String.eqb_spec c k) as [->|].
    + by rewrite IH.
Qed.

Lemma get_app_new (c k : string) (n : node) (es : list (string * node)) :
  get k (es ++ [(c, n)])
    = match get k es with
      | Some x => Some x
      | None => if String.eqb c k then Some n else None
      end.
Proof.
  induction es as [|[k0 n0] es IH]; cbn [app get]; [done|].
  by destruct (String.eqb k0 k).
Qed.

(** *** Walks *)


Lemma walk_empty_dir (q : list string) :
  walk (Dir []) q ≠ inr File.
Proof. by destruct q. Qed.


(** *** [mkdir_at] *)

Lemma mkdir_at_creates (n n' : node) (p : list string) :
  mkdir_at n p = inr n' → walk n' p = inr (Dir []).
Proof.
  revert n n'. induction p as [|c p IH]; intros n n'; cbn [mkdir_at]; [done|].
  destruct n as [|es]; [done|].
  destruct (get c es) as [n0|] eqn:Hc.
  - destruct (mkdir_at n0 p) as [e|n0'] eqn:Hm; [done|].
    intros [= <-]. cbn [walk]. rewrite get_set_eq. by eapply IH.
  - destruct p; [|done]. intros [= <-]. cbn [walk].
    rewrite get_app_new, Hc, String.eqb_refl. done.
Qed.

Lemma mkdir_at_exists (n x : node) (p : list string) :
  walk n p = inr x → mkdir_at n p = inl EEXIST.
Proof.
  revert n. induction p as [|c p IH]; intros n; cbn [mkdir_at walk]; [done|].
  destruct n as [|es]; [done|].
  destruct (get c es) as [n0|]; [|done].
  intros H. by rewrite (IH _ H).
Qed.

Lemma mkdir_at_EEXIST (n : node) (p : list string) :
  mkdir_at n p = inl EEXIST → ∃ x, walk n p = inr x.
Proof.
  revert n. induction p as [|c p IH]; intros n; cbn [mkdir_at walk]; [by eexists|].
  destruct n as [|es]; [done|].
  destruct (get c es) as [n0|].
  - destruct (mkdir_at n0 p) as [e|n0'] eqn:Hm; [|done].
    intros [= ->]. by apply IH.
  - by destruct p.
Qed.

Lemma mkdir_at_ENOTDIR (n : node) (p : list string) :
  mkdir_at n p = inl ENOTDIR → ∃ q, q `prefix_of` p ∧ walk n q = inr File.
Proof.
  revert n. induction p as [|c p IH]; intros n; cbn [mkdir_at]; [done|].
  destruct n as [|es]; [intros _; exists []; split; [apply prefix_nil|done]|].
  destruct (get c es) as [n0|] eqn:Hc.
  - destruct (mkdir_at n0 p) as [e|n0'] eqn:Hm; [|done].
    intros [= ->]. destruct (IH _ Hm) as (q & Hq & Hw).
    exists (c :: q). split; [by apply prefix_cons|]. cbn [walk]. by rewrite Hc.
  - by destruct p.
Qed.

(** the tree has no permissions *)
Lemma mkdir_at_not_EACCES (n : node) (p : list string) :
  mkdir_at n p ≠ inl EACCES.
Proof.
  revert n. induction p as [|c p IH]; intros n; cbn [mkdir_at]; [done|].
  destruct n as [|es]; [done|].
  destruct (get c es) as [n0|].
  - specialize (IH n0). by destruct (mkdir_at n0 p) as [[]|].
  - by destruct p.
Qed.

(** below a directory, [mkdir] of a new entry succeeds *)
Lemma mkdir_at_child (n : node) (p : list string) (c : string) (es : list (string * node)) :
  walk n p = inr (Dir es) →
  mkdir_at n (p ++ [c]) = inl EEXIST ∨ ∃ n', mkdir_at n (p ++ [c]) = inr n'.
Proof.
  revert n. induction p as [|k p IH]; intros n; cbn [app mkdir_at walk].
  - intros [= ->]. destruct (get c es); [by left|right; by eexists].
  - destruct n as [|es0]; [done|].
    destruct (get k es0) as [n0|]; [|done].
    intros H. destruct (IH _ H) as [->|[n' ->]]; [by left|right; by eexists].
Qed.

(** what a walk finds after a [mkdir]: the regular files are the same, and
    the directories are still directories *)
Lemma mkdir_at_frame (n n' : node) (p : list string) :
  mkdir_at n p = inr n' →
  ∀ q, file_at n' q = file_at n q ∧ (dir_at n q = true → dir_at n' q = true).
Proof.
  revert n n'. induction p as [|c p IH]; intros n n'; cbn [mkdir_at]; [done|].
  destruct n as [|es]; [done|].
  destruct (get c es) as [n0|] eqn:Hc.
  - destruct (mkdir_at n0 p) as [e|n0'] eqn:Hm; [done|].
    intros [= <-] [|k q]; [done|].
    unfold file_at, dir_at. cbn [walk].
    destruct (String.eqb_spec k c) as [->|Hne].
    + rewrite get_set_eq, Hc. apply (IH _ _ Hm q).
    + by rewrite get_set_ne.
  - destruct p; [|done]. intros [= <-] [|k q]; [done|].
    unfold file_at, dir_at. cbn [walk]. rewrite get_app_new.
    destruct (get k es) as [x|] eqn:Hk; [done|].
    destruct (String.eqb c k); [|done].
    by destruct q.
Qed.


(** *** Paths on the tree *)

Lemma resolve_tail (f : fs) (rt : string) (t : list string) :
  resolve f {| root := rt; tail := t |} = resolve f {| root := rt; tail := [] |} ++ t.
Proof. unfold resolve. cbn [root tail]. destruct rt; [by rewrite app_nil_r|done]. Qed.

Lemma elem_of_inits (q l : list string) : q `prefix_of` l → q ∈ inits l.
Proof.
  revert q. induction l as [|c l IH]; intros q Hq.
  - apply prefix_nil_inv in Hq as ->. cbn. left.
  - destruct q as [|k q]; cbn [inits]; [left|].
    right. assert (k = c) as -> by by eapply prefix_cons_inv_1.
    apply list_elem_of_fmap. exists q. split; [done|].
    apply IH. by eapply prefix_cons_inv_2.
Qed.

Lemma not_obstructed (f : fs) (p : path) (q : list string) :
  obstructed f p = false → q `prefix_of` resolve f p → file_at (tree f) q = false.
Proof.
  unfold obstructed. intros Hno Hq.
  destruct (file_at (tree f) q) eqn:Hf; [|done].
  rewrite <-Hno. symmetry. apply existsb_exists. exists q.
  split; [|done]. apply list_elem_of_In. by apply elem_of_inits.
Qed.

Lemma dir_at_walk (n : node) (q : list string) :
  dir_at n q = true → ∃ es, walk n q = inr (Dir es).
Proof. unfold dir_at. destruct (walk n q) as [|[|es]]; [done..|by eexists]. Qed.

(** *** [Path.mkdir(parents=True, exist_ok=True)] *)

Lemma made_already (f : fs) (q : list string) :
  dir_at (tree f) q = true → made f f q.
Proof. intros H. by repeat split. Qed.

Lemma made_mkdir_at (f : fs) (q : list string) (t : node) :
  mkdir_at (tree f) q = inr t → made f {| tree := t; cwd := cwd f |} q.
Proof.
  intros Hm. split; [done|].
  split; [unfold dir_at; cbn [tree]; by rewrite (mkdir_at_creates _ _ _ Hm)|].
  split; [intros r; apply (mkdir_at_frame _ _ _ Hm r)|].
  split; [intros r; apply (mkdir_at_frame _ _ _ Hm r)|].
  intros (es & Hes)%dir_at_walk. by rewrite (mkdir_at_exists _ _ _ Hes) in Hm.
Qed.

(** an [os.mkdir] that fails for another reason than a missing parent, where
    no regular file is in the way, found the directory *)
Lemma mkdir_at_found (n : node) (q : list string) (e : errno) :
  (∀ r, r `prefix_of` q → file_at n r = false) →
  mkdir_at n q = inl e → e ≠ ENOENT → dir_at n q = true.
Proof.
  intros Hfree Hm Hne. destruct e; [done| | |].
  - destruct (mkdir_at_EEXIST _ _ Hm) as [x Hx].
    specialize (Hfree q (reflexivity _)).
    unfold dir_at, file_at in *. rewrite Hx in *. by destruct x.
  - destruct (mkdir_at_ENOTDIR _ _ Hm) as (r & Hr & Hw).
    specialize (Hfree _ Hr). unfold file_at in Hfree. by rewrite Hw in Hfree.
  - by destruct (mkdir_at_not_EACCES _ _ Hm).
Qed.

(** [Path.mkdir(exist_ok=True)] below a directory *)
Lemma mkdir_no_parents_ok (p : path) (f : fs) (q : list string) (c : string) :
  resolve f p = q ++ [c] →
  dir_at (tree f) q = true →
  file_at (tree f) (q ++ [c]) = false →
  ∃ f', mkdir_no_parents true p f = inr f' ∧ made f f' (q ++ [c]).
Proof.
  intros Hres (es & Hes)%dir_at_walk Hfree.
  unfold mkdir_no_parents, os_mkdir, is_dir. rewrite Hres.
  destruct (mkdir_at_child _ _ c _ Hes) as [Hm|[t Hm]]; rewrite Hm.
  - destruct (mkdir_at_EEXIST _ _ Hm) as [x Hx].
    assert (Hd : dir_at (tree f) (q ++ [c]) = true).
    { unfold dir_at, file_at in *. rewrite Hx in *. by destruct x. }
    rewrite Hd. exists f. split; [done|]. by apply made_already.
  - eexists. split; [done|]. by apply made_mkdir_at.
Qed.

(** On the tree, where nothing but a regular file stops [os.mkdir]: when the
    directory the path starts from exists and no regular file is in the way,
    the call returns and the directory is made. *)
Lemma mkdir_parents_ok (rt : string) (rtail : list string) (f : fs) :
  dir_at (tree f) (resolve f {| root := rt; tail := [] |}) = true →
  (∀ q, q `prefix_of` resolve f {| root := rt; tail := rev rtail |} →
        file_at (tree f) q = false) →
  ∃ f', mkdir_parents rt rtail true f = inr f'
        ∧ made f f' (resolve f {| root := rt; tail := rev rtail |}).
Proof.
  revert f. induction rtail as [|c rparent IH]; intros f Hbase Hfree;
    cbn [mkdir_parents]; unfold os_mkdir;
    destruct (mkdir_at (tree f) (resolve f {| root := rt; tail := rev _ |}))
      as [e|t] eqn:Hm.
  - (* the path is its own parent *)
    assert (Hd := Hbase). apply dir_at_walk in Hd as [es Hes].
    cbn [rev] in Hm. rewrite (mkdir_at_exists _ _ _ Hes) in Hm. injection Hm as <-.
    unfold is_dir. cbn [rev]. rewrite Hbase. exists f. split; [done|].
    by apply made_already.
  - eexists. split; [done|]. by apply made_mkdir_at.
  - destruct (decide (e = ENOENT)) as [->|Hne].
    + (* a parent is missing: it is made first *)
      assert (Hstep : resolve f {| root := rt; tail := rev (c :: rparent) |}
                      = resolve f {| root := rt; tail := rev rparent |} ++ [c]).
      { cbn [rev]. rewrite (resolve_tail _ _ (rev rparent)), (resolve_tail _ _ (_ ++ _)).
        by rewrite app_assoc. }
      destruct (IH f Hbase) as (f1 & -> & Hcwd & Hdir & Hfile & Hdirs & _).
      { intros q Hq. apply Hfree. rewrite Hstep. by apply prefix_app_r. }
      destruct (mkdir_no_parents_ok {| root := rt; tail := rev (c :: rparent) |} f1
                  (resolve f {| root := rt; tail := rev rparent |}) c)
        as (f' & -> & Hcwd' & Hdir' & Hfile' & Hdirs' & _).
      { rewrite <-Hstep. unfold resolve. by rewrite Hcwd. }
      { done. }
      { rewrite Hfile, <-Hstep. by apply Hfree. }
      exists f'. split; [done|]. rewrite Hstep.
      split; [congruence|]. split; [done|].
      split; [intros r; by rewrite Hfile'|].
      split; [intros r Hr; by apply Hdirs', Hdirs|].
      rewrite <-Hstep. intros (es & Hes)%dir_at_walk.
      by rewrite (mkdir_at_exists _ _ _ Hes) in Hm.
    + pose proof (mkdir_at_found _ _ _ Hfree Hm Hne) as Hd.
      unfold is_dir. rewrite Hd. exists f.
      split; [by destruct e|]. by apply made_already.
  - eexists. split; [done|]. by apply made_mkdir_at.
Qed.

(** *** A regular file in the way *)



End FSSpec.

(** ** The settings validator *)

Module SettingsSpec.
Import PurePath Effects FS Settings FSSpec.

Lemma resolve_cwd (f f' : fs) (p : path) : cwd f' = cwd f → resolve f' p = resolve f p.
Proof. intros H. unfold resolve. by rewrite H. Qed.

(** the directory a path starts from is one when the working directory is *)
Lemma base_is_dir (f : fs) (rt : string) :
  is_dir f (Path ".") = true →
  dir_at (tree f) (resolve f {| root := rt; tail := [] |}) = true.
Proof.
  unfold is_dir. change (Path ".") with {| root := ""; tail := [] |}.
  destruct rt as [|a rt]; [done|].
  unfold resolve. cbn [root tail]. rewrite app_nil_r.
  unfold dir_at. destruct (tree f) as [|es]; [by destruct (cwd f)|done].
Qed.





End SettingsSpec.

(** * Further properties *)

(** ** The settings *)

Module SettingsMore.
Import PurePath Effects FS Settings FSSpec SettingsSpec.

(** *** Whenever [Path.mkdir] returns *)

Lemma mkdir_no_parents_made (p : path) (f f' : fs) :
  mkdir_no_parents true p f = inr f' → made f f' (resolve f p).
Proof.
  unfold mkdir_no_parents, os_mkdir.
  destruct (mkdir_at (tree f) (resolve f p)) as [e|t] eqn:Hm.
  - destruct e; [done|..]; cbn [negb orb];
      destruct (is_dir f p) eqn:Hd; try done; intros [= <-]; by apply made_already.
  - intros [= <-]. by apply made_mkdir_at.
Qed.

Lemma made_trans (f f1 f' : fs) (q1 q : list string) :
  made f f1 q1 → made f1 f' q → dir_at (tree f) q = false → made f f' q.
Proof.
  intros (Hc1 & _ & Hf1 & Hd1 & _) (Hc & Hd & Hf & Hds & _) Hno.
  split; [congruence|]. split; [done|].
  split; [intros r; by rewrite Hf|].
  split; [intros r Hr; by apply Hds, Hd1|].
  by rewrite Hno.
Qed.

Lemma mkdir_parents_made (rt : string) (rtail : list string) (f f' : fs) :
  mkdir_parents rt rtail true f = inr f' →
  made f f' (resolve f {| root := rt; tail := rev rtail |}).
Proof.
  revert f f'. induction rtail as [|c rparent IH]; intros f f';
    cbn [mkdir_parents]; unfold os_mkdir;
    destruct (mkdir_at (tree f) (resolve f {| root := rt; tail := rev _ |}))
      as [e|t] eqn:Hm.
  - destruct e; [done|..]; cbn [negb orb];
      destruct (is_dir f _) eqn:Hd; try done; intros [= <-]; by apply made_already.
  - intros [= <-]. by apply made_mkdir_at.
  - destruct e; [|cbn [negb orb];
      destruct (is_dir f _) eqn:Hd; try done; intros [= <-]; by apply made_already..].
    destruct (mkdir_parents rt rparent true f) as [e1|f1] eqn:Hp; [done|].
    intros Hlast. apply IH in Hp. apply mkdir_no_parents_made in Hlast.
    assert (Hres : resolve f1 {| root := rt; tail := rev (c :: rparent) |}
                   = resolve f {| root := rt; tail := rev (c :: rparent) |}).
    { unfold resolve. by rewrite (proj1 Hp). }
    rewrite Hres in Hlast. eapply made_trans; [exact Hp|exact Hlast|].
    destruct (dir_at (tree f) _) eqn:Hd; [|done].
    apply dir_at_walk in Hd as [es Hes]. by rewrite (mkdir_at_exists _ _ _ Hes) in Hm.
  - intros [= <-]. by apply made_mkdir_at.
Qed.

(** on a directory that is there the call changes nothing *)
Lemma mkdir_parents_existing (rt : string) (rtail : list string) (f : fs) :
  is_dir f {| root := rt; tail := rev rtail |} = true →
  mkdir_parents rt rtail true f = inr f.
Proof.
  intros Hd. assert (Hd' := Hd). unfold is_dir in Hd'.
  apply dir_at_walk in Hd' as [es Hes].
  destruct rtail; cbn [mkdir_parents]; unfold os_mkdir;
    rewrite (mkdir_at_exists _ _ _ Hes); by rewrite Hd.
Qed.

Lemma Path_rev (v : string) :
  {| root := root (Path v); tail := rev (rev (tail (Path v))) |} = Path v.
Proof. rewrite rev_involutive. by destruct (Path v). Qed.

(** whenever the validator returns: the value is [str(Path(v))] and the
    directory is made *)
Lemma ensure_directory_exists_made (v : string) (f f' : fs) (s : string) :
  ensure_directory_exists v f = inr (f', s) →
  s = str (Path v) ∧ made f f' (resolve f (Path v)).
Proof.
  unfold ensure_directory_exists, mkdir.
  destruct (mkdir_parents _ _ true f) as [e|f1] eqn:Hm; [done|].
  intros [= <- <-]. split; [done|]. apply mkdir_parents_made in Hm. by rewrite Path_rev in Hm.
Qed.

(** X3: validating again what the validator returned changes nothing: the same
    string comes back and the file system stays as it is. *)
Theorem ensure_directory_exists_idempotent (v : string) (f f' : fs) (s : string) :
  ensure_directory_exists v f = inr (f', s) →
  ensure_directory_exists s f' = inr (f', s).
Proof.
  intros [-> (Hcwd & Hdir & _)]%ensure_directory_exists_made.
  unfold ensure_directory_exists, mkdir.
  rewrite PathSpec.Path_str by apply PathSpec.Path_normal.
  rewrite mkdir_parents_existing; [done|].
  rewrite Path_rev. unfold is_dir. by rewrite (resolve_cwd f f').
Qed.

(** X4: the two path fields one after the other: when both validations return,
    both directories exist at the end, and the regular files are those of the
    start. *)
Theorem ensure_directory_exists_both (v1 v2 : string) (f f1 f2 : fs) (s1 s2 : string) :
  ensure_directory_exists v1 f = inr (f1, s1) →
  ensure_directory_exists v2 f1 = inr (f2, s2) →
  is_dir f2 (Path v1) = true
  ∧ is_dir f2 (Path v2) = true
  ∧ (∀ q, is_file f2 q = is_file f q)
  ∧ (∀ q, is_dir f q = true → is_dir f2 q = true).
Proof.
  intros [_ (Hc1 & Hd1 & Hf1 & Hds1 & _)]%ensure_directory_exists_made
         [_ (Hc2 & Hd2 & Hf2 & Hds2 & _)]%ensure_directory_exists_made.
  assert (Hr : ∀ q, resolve f2 q = resolve f q)
    by (intros q; unfold resolve; by rewrite Hc2, Hc1).
  assert (Hr1 : ∀ q, resolve f1 q = resolve f q)
    by (intros q; unfold resolve; by rewrite Hc1).
  unfold is_dir, is_file. repeat split.
  - rewrite Hr. by apply Hds2.
  - by rewrite Hr, <-Hr1.
  - intros q. by rewrite Hr, Hf2, Hf1.
  - intros q Hq. rewrite Hr. by apply Hds2, Hds1.
Qed.

(** X1: [max_file_size_bytes] is a whole number of mebibytes from which the
    configured size is read back, and it keeps the order of the sizes. *)
Theorem max_file_size_bytes_exact (mb mb' : Z) :
  (max_file_size_bytes mb `div` 1048576 = mb)%Z
  ∧ (max_file_size_bytes mb `mod` 1048576 = 0)%Z
  ∧ ((mb < mb')%Z ↔ (max_file_size_bytes mb < max_file_size_bytes mb')%Z)
  ∧ (max_file_size_bytes mb = max_file_size_bytes mb' → mb = mb').
Proof.
  unfold max_file_size_bytes.
  replace (mb * 1024 * 1024)%Z with (mb * 1048576)%Z by lia.
  replace (mb' * 1024 * 1024)%Z with (mb' * 1048576)%Z by lia.
  repeat split; try lia.
  - by rewrite Z.div_mul.
  - by rewrite Z.mod_mul.
Qed.

(** *** A regular file in the way *)





(** *** The theorems on the sample tree *)

Lemma ensure_directory_exists_idempotent_witness :
  ∃ f', ensure_directory_exists "./data//vector_store/" Sample.disk
          = inr (f', "data/vector_store")
        ∧ ensure_directory_exists "data/vector_store" f' = inr (f', "data/vector_store").
Proof.
  eexists. split; [reflexivity|].
  apply (ensure_directory_exists_idempotent "./data//vector_store/" Sample.disk).
  reflexivity.
Defined.

Lemma ensure_directory_exists_both_witness :
  ∃ f1 f2,
    ensure_directory_exists "./data/vector_store" Sample.disk = inr (f1, "data/vector_store")
    ∧ ensure_directory_exists "./data/uploads" f1 = inr (f2, "data/uploads")
    ∧ is_dir f2 (Path "./data/vector_store") = true
    ∧ is_dir f2 (Path "./data/uploads") = true
    ∧ (∀ q, is_file f2 q = is_file Sample.disk q)
    ∧ (∀ q, is_dir Sample.disk q = true → is_dir f2 q = true).
Proof.
  do 2 eexists. split; [reflexivity|]. split; [reflexivity|].
  eapply (ensure_directory_exists_both "./data/vector_store" "./data/uploads" Sample.disk);
    reflexivity.
Defined.



End SettingsMore.

(** ** The document processor *)

Module DocProcMore.
Import PurePath Effects OSys FS DocProc DocProcSpec.

(** *** Python strings and paths *)

Lemma lower_ascii_idempotent (c : ascii) :
  Py.lower_ascii (Py.lower_ascii c) = Py.lower_ascii c.
Proof. by destruct c as [[] [] [] [] [] [] [] []]. Qed.

Lemma lower_idempotent (s : string) : Py.lower (Py.lower s) = Py.lower s.
Proof.
  induction s as [|c s IH]; [done|]. cbn [Py.lower]. by rewrite lower_ascii_idempotent, IH.
Qed.

Lemma name_child (p : path) (nm : string) : name (child p nm) = nm.
Proof. unfold name, child. cbn [tail]. apply last_last. Qed.

Lemma child_normal (p : path) (nm : string) :
  normal p → component nm → normal (child p nm).
Proof.
  intros [Hr Ht] Hnm. split; [done|]. cbn [child tail].
  apply Forall_app. split; [done|]. by constructor.
Qed.

(** [load_document(str(file_path))] reads the child it was given *)
Lemma Path_str_child (directory_path nm : string) :
  component nm →
  Path (str (child (Path directory_path) nm)) = child (Path directory_path) nm.
Proof.
  intros Hnm. apply PathSpec.Path_str, child_normal; [apply PathSpec.Path_normal|done].
Qed.

(** *** The log of a call *)

Lemma logs_bind {A B} (m : M A) (k : A → M B) :
  logs (m ≫= k) = match outcome m with
                   | inl _ => logs m
                   | inr a => logs m ++ logs (k a)
                   end.
Proof.
  destruct m as [l [e|a]]; [reflexivity|].
  unfold logs, outcome, mbind, M_bind. cbn [fst snd]. by destruct (k a).
Qed.

Lemma logs_except {A} (body : M A) (handler : exn → M A) :
  logs (except body handler) = match outcome body with
                               | inl e => logs body ++ logs (handler e)
                               | inr _ => logs body
                               end.
Proof.
  destruct body as [l [e|a]]; [|reflexivity].
  unfold logs, outcome, except. cbn [fst snd]. by destruct (handler e).
Qed.

Section More.

Context (os : OS) (load : loader_class → string → exn + list Document).

Abbreviation load_document := (DocProc.load_document os load).
Abbreviation process_directory := (DocProc.process_directory os load).
Abbreviation process_files := (DocProc.process_files os load).
Abbreviation records_kept := (DocProc.records_kept os load).

(** *** [load_document] *)

(** X5: a failure of the loader is logged once, with the file's name, and the
    same exception is raised again. *)
Theorem loader_failure_propagates (self : DocumentProcessor) (file_path : string)
    (cls : loader_class) (e : exn) :
  os_exists os (Path file_path) = true →
  dict_get (Py.lower (suffix (Path file_path))) (supported_extensions self) = Some cls →
  load cls (str (Path file_path)) = inl e →
  load_document self file_path
    = ([(ERROR, Error_loading_document (name (Path file_path)) e)], inl e).
Proof. intros Hex Hget Hload. by rewrite (load_document_supported _ _ _ _ cls), Hload. Qed.

(** X7: the [file_type] of every record returned is a key of the loader table,
    in lower case. *)
Theorem file_type_is_supported (self : DocumentProcessor) (file_path : string)
    (documents : list Document) :
  outcome (load_document self file_path) = inr documents →
  ∀ doc, doc ∈ documents →
    ∃ ext, metadata doc !! "file_type" = Some (VStr ext)
           ∧ ext ∈ dict_keys (supported_extensions self)
           ∧ Py.lower ext = ext.
Proof.
  intros (cls & loaded & _ & Hget & _ & ->)%load_document_returns doc
         (doc0 & -> & _)%list_elem_of_fmap.
  exists (Py.lower (suffix (Path file_path))).
  split; [apply stamp_document_metadata|].
  split; [|apply lower_idempotent].
  apply dict_mem_keys, dict_mem_get. by rewrite Hget.
Qed.

(** X8: a path whose name has no dot after its first character, or whose
    only such dot is the last character (a directory such as [docs], a file
    [README], a dot-file [.txt], a name [draft.]) has no suffix: it is an
    unsupported type, with an empty extension in the message. *)
Theorem no_suffix_unsupported (cs co : Z) (file_path : string) :
  os_exists os (Path file_path) = true →
  Py.rfind "." (name (Path file_path)) = None
  ∨ Py.rfind "." (name (Path file_path)) = Some 0
  ∨ Py.rfind "." (name (Path file_path))
    = Some (String.length (name (Path file_path)) - 1) →
  load_document (init cs co) file_path
    = ([(ERROR, Unsupported_file_type "")],
       inl (ValueError
              "Unsupported file type: , supported types are: ['.pdf', '.txt', '.docx', '.doc']")).
Proof.
  intros Hex Hdot.
  assert (Hsuf : suffix (Path file_path) = "").
  { unfold suffix. destruct Hdot as [-> | [-> | ->]]; [done|done|].
    by rewrite Nat.ltb_irrefl, andb_false_r. }
  unfold DocProc.load_document. rewrite Hex, Hsuf. reflexivity.
Qed.

(** *** [process_directory] *)

(** the records the loop logs for one child *)
Lemma process_files_logs (self : DocumentProcessor) (files : list path)
    (all_documents : list Document) :
  logs (process_files self files all_documents)
    = flat_map
        (λ file_path,
           if os_is_file os file_path
              && dict_mem (Py.lower (suffix file_path)) (supported_extensions self)
           then logs (load_document self (str file_path))
                ++ match outcome (load_document self (str file_path)) with
                   | inl e => [(ERROR, Failed_to_process_file (name file_path) e)]
                   | inr _ => []
                   end
           else [])
        files.
Proof.
  revert all_documents.
  induction files as [|file_path files IH]; intros all_documents; [done|].
  cbn [DocProc.process_files flat_map].
  destruct (os_is_file os file_path && _); [|apply IH].
  rewrite logs_bind, outcome_except, logs_except, !outcome_bind, !logs_bind.
  destruct (load_document self (str file_path)) as [l [e|documents]];
    cbn [outcome logs fst snd]; rewrite ?outcome_bind, ?logs_bind;
    cbn [outcome logs logger mret M_ret fst snd]; rewrite IH; by rewrite ?app_nil_r.
Qed.

(** what [process_directory] does on a directory that can be listed *)
Lemma process_directory_listed (self : DocumentProcessor) (directory_path : string)
    (names : list string) :
  os_exists os (Path directory_path) = true →
  os_listdir os (Path directory_path) = inr names →
  process_directory self directory_path
    = (logs (process_files self (map (child (Path directory_path)) names) [])
         ++ [(INFO, Total_documents_loaded
                      (length (flat_map (records_kept self)
                                 (map (child (Path directory_path)) names))))],
       inr (flat_map (records_kept self) (map (child (Path directory_path)) names))).
Proof.
  intros Hex Hls. unfold DocProc.process_directory. rewrite Hex, Hls. cbn [negb].
  cbv [call mbind M_bind mret M_ret logger].
  pose proof (process_files_outcome os load self
                (map (child (Path directory_path)) names) []) as Hout.
  destruct (process_files self _ []) as [l [e|r]]; [done|].
  cbn [outcome snd app] in Hout. injection Hout as ->. done.
Qed.

(** X10: on a directory without a regular file of a supported type (an empty
    one, for instance) no loader runs: the call returns no record and logs
    the total 0 alone. *)
Theorem process_directory_nothing_to_load (self : DocumentProcessor)
    (directory_path : string) (names : list string) :
  os_exists os (Path directory_path) = true →
  os_listdir os (Path directory_path) = inr names →
  (∀ nm, nm ∈ names →
     os_is_file os (child (Path directory_path) nm)
     && dict_mem (Py.lower (suffix (child (Path directory_path) nm)))
          (supported_extensions self) = false) →
  process_directory self directory_path = ([(INFO, Total_documents_loaded 0)], inr []).
Proof.
  intros Hex Hls Hnone. rewrite (process_directory_listed _ _ names) by done.
  rewrite process_files_logs.
  assert (Hr : flat_map (records_kept self) (map (child (Path directory_path)) names) = []).
  { clear Hls. induction names as [|nm names IH]; [done|]. cbn [map flat_map].
    unfold DocProc.records_kept at 1. rewrite Hnone by left.
    apply IH. intros ? ?. apply Hnone. by right. }
  rewrite Hr. f_equal.
  clear Hls Hr. induction names as [|nm names IH]; [done|]. cbn [map flat_map].
  rewrite Hnone by left. apply IH. intros ? ?. apply Hnone. by right.
Qed.

(** X11: the total that is logged last is the number of records returned. *)
Theorem process_directory_logs_total (self : DocumentProcessor) (directory_path : string)
    (documents : list Document) :
  outcome (process_directory self directory_path) = inr documents →
  last (logs (process_directory self directory_path))
    = Some (INFO, Total_documents_loaded (length documents)).
Proof.
  unfold DocProc.process_directory.
  destruct (os_exists os (Path directory_path)); [|done]. cbn [negb].
  destruct (os_listdir os (Path directory_path)) as [e|names]; [done|].
  cbv [call mbind M_bind mret M_ret logger].
  destruct (process_files self _ []) as [l [e|r]]; [done|].
  cbn [outcome logs fst snd app]. intros [= <-]. by rewrite last_snoc.
Qed.

(** X9: every record [process_directory] returns comes from a listed regular
    file: its [source] is the entry's name, its [file_path] the path of the
    entry in the directory, and its [file_type] a key of the table. *)
Theorem process_directory_provenance (self : DocumentProcessor) (directory_path : string)
    (names : list string) (documents : list Document) :
  Forall component names →
  os_exists os (Path directory_path) = true →
  os_listdir os (Path directory_path) = inr names →
  outcome (process_directory self directory_path) = inr documents →
  ∀ doc, doc ∈ documents →
    ∃ nm, nm ∈ names
      ∧ os_is_file os (child (Path directory_path) nm) = true
      ∧ metadata doc !! "source" = Some (VStr nm)
      ∧ metadata doc !! "file_path" = Some (VStr (str (child (Path directory_path) nm)))
      ∧ metadata doc !! "file_type"
        = Some (VStr (Py.lower (suffix (child (Path directory_path) nm))))
      ∧ Py.lower (suffix (child (Path directory_path) nm))
        ∈ dict_keys (supported_extensions self).
Proof.
  intros Hnames Hex Hls. rewrite (process_directory_listed _ _ names) by done.
  cbn [outcome snd]. intros [= <-] doc Hdoc.
  apply list_elem_of_In, in_flat_map in Hdoc as (fp & Hfp & Hdoc).
  apply in_map_iff in Hfp as (nm & <- & Hnm). apply list_elem_of_In in Hnm.
  exists nm. split; [done|].
  assert (Hc : component nm) by by eapply (proj1 (Forall_forall _ _) Hnames).
  unfold DocProc.records_kept in Hdoc.
  destruct (os_is_file os _) eqn:Hfile; [|done]. split; [done|].
  destruct (dict_mem _ _) eqn:Hmem; [|done]. cbn [andb] in Hdoc.
  destruct (outcome (load_document self _)) as [e|loaded] eqn:Hout; [done|].
  apply load_document_returns in Hout as (cls & loaded0 & _ & _ & _ & ->).
  apply list_elem_of_In, list_elem_of_fmap in Hdoc as (doc0 & -> & _).
  rewrite Path_str_child by done.
  destruct (stamp_document_metadata (child (Path directory_path) nm)
              (Py.lower (suffix (child (Path directory_path) nm))) doc0)
    as (Hs & Hp & Ht & _).
  rewrite name_child in Hs. repeat split; try done.
  by apply dict_mem_keys.
Qed.

End More.

(** *** On a directory tree *)

Lemma is_file_exists (f : fs) (p : path) : is_file f p = true → exists_ f p = true.
Proof.
  unfold is_file, file_at, exists_, stat. by destruct (walk (tree f) (resolve f p)).
Qed.

(** X14: given the path of a regular file, [process_directory] does not
    report it missing: the listing fails and its [NotADirectoryError] is
    raised, nothing being logged. *)
Theorem process_directory_of_a_file (f : fs)
    (load : loader_class → string → exn + list Document)
    (self : DocumentProcessor) (directory_path : string) :
  is_file f (Path directory_path) = true →
  DocProc.process_directory (os_of f) load self directory_path
    = ([], inl (OSError ENOTDIR (str (Path directory_path)))).
Proof.
  intros Hfile. unfold DocProc.process_directory. cbn [os_of os_exists os_listdir].
  rewrite (is_file_exists _ _ Hfile). cbn [negb]. unfold listdir.
  unfold is_file, file_at in Hfile. unfold stat.
  by destruct (walk (tree f) (resolve f (Path directory_path))) as [|[|]].
Qed.

(** *** The theorems on the sample environments *)

Lemma loader_failure_propagates_witness :
  os_exists (os_of Sample.disk) (Path "docs/b.pdf") = true
  ∧ Sample.load PyPDFLoader "docs/b.pdf"
    = inl (LibraryError "PdfReadError" "EOF marker not found")
  ∧ DocProc.load_document (os_of Sample.disk) Sample.load default "docs/b.pdf"
    = ([(ERROR, Error_loading_document "b.pdf"
                  (LibraryError "PdfReadError" "EOF marker not found"))],
       inl (LibraryError "PdfReadError" "EOF marker not found")).
Proof.
  split; [reflexivity|]. split; [reflexivity|].
  apply (loader_failure_propagates (os_of Sample.disk) Sample.load default "docs/b.pdf"
           PyPDFLoader); reflexivity.
Defined.

Lemma file_type_is_supported_witness :
  ∃ documents,
    outcome (DocProc.load_document (os_of Sample.disk) Sample.load default
               "docs/Report.PDF") = inr documents
    ∧ ∀ doc, doc ∈ documents →
        ∃ ext, metadata doc !! "file_type" = Some (VStr ext)
               ∧ ext ∈ [".pdf"; ".txt"; ".docx"; ".doc"]
               ∧ Py.lower ext = ext.
Proof.
  eexists. split; [reflexivity|].
  apply (file_type_is_supported (os_of Sample.disk) Sample.load default "docs/Report.PDF").
  reflexivity.
Defined.

Lemma no_suffix_unsupported_witness :
  os_exists (os_of Inbox.disk) (Path "inbox/.txt") = true
  ∧ Py.rfind "." (name (Path "inbox/.txt")) = Some 0
  ∧ DocProc.load_document (os_of Inbox.disk) Sample.load (init 1000 200) "inbox/.txt"
    = ([(ERROR, Unsupported_file_type "")],
       inl (ValueError
              "Unsupported file type: , supported types are: ['.pdf', '.txt', '.docx', '.doc']")).
Proof.
  split; [reflexivity|]. split; [reflexivity|].
  apply (no_suffix_unsupported (os_of Inbox.disk) Sample.load 1000 200 "inbox/.txt");
    [reflexivity|right; left; reflexivity].
Defined.

Lemma process_directory_nothing_to_load_witness :
  os_listdir (os_of Inbox.disk) (Path "inbox")
    = inr [".txt"; "README"; "draft."; "table.csv"; "old.txt"]
  ∧ DocProc.process_directory (os_of Inbox.disk) Sample.load default "inbox"
    = ([(INFO, Total_documents_loaded 0)], inr []).
Proof.
  split; [reflexivity|].
  apply (process_directory_nothing_to_load (os_of Inbox.disk) Sample.load default "inbox"
           [".txt"; "README"; "draft."; "table.csv"; "old.txt"]);
    [reflexivity|reflexivity|].
  intros nm Hnm. rewrite !elem_of_cons, elem_of_nil in Hnm.
  destruct Hnm as [->|[->|[->|[->|[->|[]]]]]]; reflexivity.
Defined.

Lemma process_directory_logs_total_witness :
  ∃ documents,
    outcome (DocProc.process_directory (os_of Sample.disk) Sample.load default "docs")
      = inr documents
    ∧ length documents = 4
    ∧ last (logs (DocProc.process_directory (os_of Sample.disk) Sample.load default "docs"))
      = Some (INFO, Total_documents_loaded (length documents)).
Proof.
  eexists. split; [reflexivity|]. split; [reflexivity|].
  apply (process_directory_logs_total (os_of Sample.disk) Sample.load default "docs").
  reflexivity.
Defined.

Lemma sample_names_are_components :
  Forall component ["a.txt"; "b.pdf"; "notes.csv"; "Report.PDF"; "old.doc"; "archive.txt"].
Proof. repeat (constructor; [split; reflexivity|]). constructor. Qed.

Lemma process_directory_provenance_witness :
  ∃ documents,
    outcome (DocProc.process_directory (os_of Sample.disk) Sample.load default "docs")
      = inr documents
    ∧ ∀ doc, doc ∈ documents →
        ∃ nm, nm ∈ ["a.txt"; "b.pdf"; "notes.csv"; "Report.PDF"; "old.doc"; "archive.txt"]
          ∧ metadata doc !! "source" = Some (VStr nm)
          ∧ metadata doc !! "file_path" = Some (VStr ("docs/" +:+ nm)).
Proof.
  eexists. split; [reflexivity|]. intros doc Hdoc.
  destruct (process_directory_provenance (os_of Sample.disk) Sample.load default "docs"
              ["a.txt"; "b.pdf"; "notes.csv"; "Report.PDF"; "old.doc"; "archive.txt"]
              _ sample_names_are_components eq_refl eq_refl eq_refl doc Hdoc)
    as (nm & Hnm & _ & Hs & Hp & _).
  exists nm. split; [exact Hnm|]. split; [exact Hs|]. exact Hp.
Defined.

Lemma process_directory_of_a_file_witness :
  is_file Sample.disk (Path "docs/a.txt") = true
  ∧ DocProc.process_directory (os_of Sample.disk) Sample.load default "docs/a.txt"
    = ([], inl (OSError ENOTDIR "docs/a.txt")).
Proof.
  split; [reflexivity|].
  apply (process_directory_of_a_file Sample.disk Sample.load default "docs/a.txt").
  reflexivity.
Defined.

End DocProcMore.

(** * The document processor over the runtime's calls *)

Module DocProcRSpec.
Import PurePath Effects OSys FS Runtime DocProc DocProcSpec DocProcMore.

(** *** Calls of the runtime *)

Lemma M_eta {A} (m : M A) : m = (logs m, outcome m).
Proof. by destruct m. Qed.

Lemma call_answered {A B} (a : A) (k : A → M B) : call (inr a) ≫= k = k a.
Proof. unfold call, mbind, M_bind. by destruct (k a). Qed.

Lemma call_raised {A B} (e : exn) (k : A → M B) : call (inl e) ≫= k = ([], inl e).
Proof. reflexivity. Qed.

Section Runtime.

Context (rt : RT) (load : loader_class → string → exn + list Document).

Abbreviation load_document := (DocProcR.load_document rt load).
Abbreviation process_directory := (DocProcR.process_directory rt load).
Abbreviation process_files := (DocProcR.process_files rt load).
Abbreviation records_kept := (DocProcR.records_kept rt load).
Abbreviation records_logged := (DocProcR.records_logged rt load).

(** *** [load_document] *)

Lemma load_document_raised (self : DocumentProcessor) (file_path : string) (e : exn) :
  path_exists rt (Path file_path) = inl e →
  load_document self file_path = ([], inl e).
Proof. intros H. unfold DocProcR.load_document. by rewrite H. Qed.

Lemma load_document_absent (self : DocumentProcessor) (file_path : string) :
  path_exists rt (Path file_path) = inr false →
  load_document self file_path =
    ([(ERROR, File_not_found (str (Path file_path)))],
     inl (FileNotFoundError ("Document not found: " +:+ str (Path file_path)))).
Proof. intros H. unfold DocProcR.load_document. by rewrite H. Qed.

Lemma load_document_loaded (self : DocumentProcessor) (file_path : string)
    (cls : loader_class) :
  path_exists rt (Path file_path) = inr true →
  dict_get (str_lower rt (suffix (Path file_path))) (supported_extensions self) = Some cls →
  load_document self file_path =
    match load cls (str (Path file_path)) with
    | inr loaded =>
        ([(INFO, Successfully_loaded_document (name (Path file_path)) (length loaded))],
         inr (map (stamp_document (Path file_path) (str_lower rt (suffix (Path file_path))))
                  loaded))
    | inl e => ([(ERROR, Error_loading_document (name (Path file_path)) e)], inl e)
    end.
Proof.
  intros Hex Hget. unfold DocProcR.load_document, dict_mem.
  rewrite Hex, call_answered, Hget. cbn [negb].
  cbv [mbind mret M_bind M_ret call except logger raise].
  destruct (load cls _) as [e|loaded]; [reflexivity|].
  by rewrite length_map.
Qed.

(** C3: on a path that exists and whose lowercased extension (as the runtime
    lowers it, accented letters included) is not in the table,
    [load_document] raises [ValueError], and the message lists the supported
    extensions [.pdf], [.txt], [.docx], [.doc], which are exactly the keys of
    the table. *)
Theorem unsupported_type_raises (cs co : Z) (file_path : string) :
  path_exists rt (Path file_path) = inr true →
  str_lower rt (suffix (Path file_path)) ∉ dict_keys (supported_extensions (init cs co)) →
  dict_keys (supported_extensions (init cs co)) = [".pdf"; ".txt"; ".docx"; ".doc"]
  ∧ load_document (init cs co) file_path =
      ([(ERROR, Unsupported_file_type (str_lower rt (suffix (Path file_path))))],
       inl (ValueError ("Unsupported file type: "
                        +:+ str_lower rt (suffix (Path file_path))
                        +:+ ", supported types are: ['.pdf', '.txt', '.docx', '.doc']"))).
Proof.
  intros Hex Hnot. split; [reflexivity|].
  unfold DocProcR.load_document. rewrite Hex, call_answered. cbn [negb].
  rewrite not_supported by exact Hnot. reflexivity.
Qed.

(** X6: a call of [load_document] whose existence check answers logs exactly
    one record, at level INFO when it returns and at level ERROR when it
    raises; when the existence check itself raises, its exception leaves the
    call and nothing is logged. *)
Theorem load_document_logs_once (self : DocumentProcessor) (file_path : string) :
  match path_exists rt (Path file_path) with
  | inl e => load_document self file_path = ([], inl e)
  | inr _ =>
      ∃ lv msg,
        logs (load_document self file_path) = [(lv, msg)]
        ∧ (lv = INFO ↔ ∃ documents, outcome (load_document self file_path) = inr documents)
        ∧ (lv = ERROR ↔ ∃ e, outcome (load_document self file_path) = inl e)
  end.
Proof.
  destruct (path_exists rt (Path file_path)) as [e|[|]] eqn:Hex.
  - by apply load_document_raised.
  - destruct (dict_get (str_lower rt (suffix (Path file_path))) (supported_extensions self))
      as [cls|] eqn:Hget.
    + rewrite (load_document_loaded _ _ cls) by done.
      destruct (load cls _) as [e|loaded]; do 2 eexists; (split; [done|]);
        split; split; try done; try (intros [? [=]]); by eexists.
    + unfold DocProcR.load_document, dict_mem. rewrite Hex, call_answered, Hget.
      do 2 eexists. split; [done|].
      split; split; try done; [intros [? [=]]|by eexists].
  - rewrite load_document_absent by done. do 2 eexists. split; [done|].
    split; split; try done; [intros [? [=]]|by eexists].
Qed.

(** *** [process_directory] *)

(** while [is_file()] answers, the loop adds what each child keeps and logs
    what each child logs *)
Lemma process_files_answered (self : DocumentProcessor) (files : list path)
    (all_documents : list Document) :
  (∀ file_path, file_path ∈ files → ∃ b, path_is_file rt file_path = inr b) →
  process_files self files all_documents
    = (flat_map (records_logged self) files,
       inr (all_documents ++ flat_map (records_kept self) files)).
Proof.
  revert all_documents.
  induction files as [|file_path files IH]; intros all_documents Hans.
  - cbn [DocProcR.process_files flat_map]. by rewrite app_nil_r.
  - destruct (Hans file_path) as [b Hb]; [left|].
    assert (Hrest : ∀ fp, fp ∈ files → ∃ b, path_is_file rt fp = inr b)
      by (intros ? ?; apply Hans; by right).
    cbn [DocProcR.process_files flat_map].
    unfold DocProcR.records_kept at 1, DocProcR.records_logged at 1.
    rewrite Hb, call_answered.
    destruct b; cbn [andb]; [|rewrite IH by done; reflexivity].
    destruct (dict_mem _ (supported_extensions self)); [|rewrite IH by done; reflexivity].
    rewrite (M_eta (_ ≫= _)).
    rewrite logs_bind, outcome_bind, outcome_except, logs_except, !outcome_bind, !logs_bind.
    destruct (load_document self (str file_path)) as [l [e|documents]];
      cbn [outcome logs fst snd]; rewrite ?outcome_bind, ?logs_bind;
      cbn [outcome logs logger mret M_ret fst snd]; rewrite IH by done;
      cbn [outcome logs fst snd app]; by rewrite <-?app_assoc.
Qed.

(** a loop that returned had an answer from every [is_file()] *)
Lemma process_files_returned (self : DocumentProcessor) (files : list path)
    (all_documents r : list Document) :
  outcome (process_files self files all_documents) = inr r →
  ∀ file_path, file_path ∈ files → ∃ b, path_is_file rt file_path = inr b.
Proof.
  revert all_documents.
  induction files as [|file_path files IH]; intros all_documents Hr fp Hfp;
    [by apply elem_of_nil in Hfp|].
  cbn [DocProcR.process_files] in Hr.
  destruct (path_is_file rt file_path) as [e|b] eqn:Hb; [done|].
  rewrite call_answered in Hr.
  apply elem_of_cons in Hfp as [->|Hfp]; [by exists b|].
  destruct (b && _).
  - rewrite outcome_bind in Hr.
    destruct (outcome (except _ _)) as [e|acc]; [done|]. by eapply IH.
  - by eapply IH.
Qed.

(** what [process_directory] does once the directory is found and listed *)
Lemma process_directory_listing (self : DocumentProcessor) (directory_path : string)
    (names : list string) :
  path_exists rt (Path directory_path) = inr true →
  path_iterdir rt (Path directory_path) = inr names →
  process_directory self directory_path
    = (logs (process_files self (map (child (Path directory_path)) names) [])
         ++ match outcome (process_files self (map (child (Path directory_path)) names) [])
            with
            | inr r => [(INFO, Total_documents_loaded (length r))]
            | inl _ => []
            end,
       outcome (process_files self (map (child (Path directory_path)) names) [])).
Proof.
  intros Hex Hls. unfold DocProcR.process_directory.
  rewrite Hex, call_answered. cbn [negb]. rewrite Hls, call_answered.
  cbv [mbind M_bind mret M_ret logger].
  destruct (process_files self _ []) as [l [e|r]]; cbn [logs outcome fst snd app];
    by rewrite ?app_nil_r.
Qed.

(** a call that returned found the directory *)
Lemma process_directory_returned (self : DocumentProcessor) (directory_path : string)
    (documents : list Document) :
  outcome (process_directory self directory_path) = inr documents →
  path_exists rt (Path directory_path) = inr true
  ∧ ∃ names, path_iterdir rt (Path directory_path) = inr names
      ∧ ∀ nm, nm ∈ names →
          ∃ b, path_is_file rt (child (Path directory_path) nm) = inr b.
Proof.
  intros Hr.
  destruct (path_exists rt (Path directory_path)) as [e|[|]] eqn:Hex.
  - unfold DocProcR.process_directory in Hr. by rewrite Hex in Hr.
  - split; [done|].
    destruct (path_iterdir rt (Path directory_path)) as [e|names] eqn:Hls.
    + unfold DocProcR.process_directory in Hr.
      by rewrite Hex, call_answered, Hls in Hr.
    + exists names. split; [done|]. intros nm Hnm.
      rewrite (process_directory_listing _ _ names) in Hr by done. cbn [outcome snd] in Hr.
      eapply process_files_returned; [exact Hr|]. by apply list_elem_of_fmap_2.
  - unfold DocProcR.process_directory in Hr. by rewrite Hex in Hr.
Qed.

(** C6, as amended: on a directory that exists and is listed, and whose
    entries [is_file()] can all classify, [process_directory] returns
    whatever the individual [load_document] calls do: the result is the
    concatenation, in the order of the listing, of the records of the
    children that loaded, a child whose [load_document] raised contributing
    nothing. *)
Theorem process_directory_skips_load_failures (self : DocumentProcessor)
    (directory_path : string) (names : list string) :
  path_exists rt (Path directory_path) = inr true →
  path_iterdir rt (Path directory_path) = inr names →
  (∀ nm, nm ∈ names → ∃ b, path_is_file rt (child (Path directory_path) nm) = inr b) →
  outcome (process_directory self directory_path)
    = inr (flat_map (λ nm, records_kept self (child (Path directory_path) nm)) names).
Proof.
  intros Hex Hls Hans. rewrite (process_directory_listing _ _ names) by done.
  cbn [outcome snd]. rewrite process_files_answered.
  - cbn [outcome snd app]. by rewrite flat_map_concat_map, map_map, <-flat_map_concat_map.
  - intros fp (nm & -> & Hnm)%list_elem_of_fmap. by apply Hans.
Qed.

(** X12: when [process_directory] returns, no file was skipped silently: for
    a listed regular file with a supported extension whose [load_document]
    raised, the log holds the error record with the entry's name and the
    exception. *)
Theorem skipped_file_is_logged (self : DocumentProcessor) (directory_path : string)
    (documents : list Document) (names : list string) (nm : string) (e : exn) :
  outcome (process_directory self directory_path) = inr documents →
  path_iterdir rt (Path directory_path) = inr names →
  nm ∈ names →
  path_is_file rt (child (Path directory_path) nm) = inr true →
  dict_mem (str_lower rt (suffix (child (Path directory_path) nm)))
    (supported_extensions self) = true →
  outcome (load_document self (str (child (Path directory_path) nm))) = inl e →
  (ERROR, Failed_to_process_file nm e) ∈ logs (process_directory self directory_path).
Proof.
  intros Hr Hls Hnm Hfile Hmem Hfail.
  destruct (process_directory_returned _ _ _ Hr) as (Hex & names' & Hls' & Hans).
  assert (names' = names) as -> by congruence.
  rewrite (process_directory_listing _ _ names) by done. cbn [logs fst].
  apply elem_of_app. left. rewrite process_files_answered.
  2: { intros fp (nm' & -> & Hnm')%list_elem_of_fmap. by apply Hans. }
  cbn [fst]. apply list_elem_of_In, in_flat_map. exists (child (Path directory_path) nm).
  split; [apply in_map; by apply list_elem_of_In|].
  unfold DocProcR.records_logged. rewrite Hfile, Hmem, Hfail, name_child.
  apply list_elem_of_In, elem_of_app. right. by left.
Qed.

(** X13: where [is_file()] answers for every listed entry, a regular file
    exists and the entry names are plain components, the checks of
    [load_document] cannot fail inside [process_directory]: the result is made
    of the loaders' records alone, a regular file with a supported extension
    contributing the stamped records of its loader, or nothing when the
    loader raised. *)
Theorem process_directory_by_loaders (self : DocumentProcessor) (directory_path : string)
    (names : list string) :
  (∀ p, path_is_file rt p = inr true → path_exists rt p = inr true) →
  Forall component names →
  path_exists rt (Path directory_path) = inr true →
  path_iterdir rt (Path directory_path) = inr names →
  (∀ nm, nm ∈ names → ∃ b, path_is_file rt (child (Path directory_path) nm) = inr b) →
  outcome (process_directory self directory_path)
    = inr (flat_map
             (λ nm,
                let file_path := child (Path directory_path) nm in
                let file_extension := str_lower rt (suffix file_path) in
                match path_is_file rt file_path with
                | inr true =>
                    match dict_get file_extension (supported_extensions self) with
                    | Some cls =>
                        match load cls (str file_path) with
                        | inr loaded => map (stamp_document file_path file_extension) loaded
                        | inl _ => []
                        end
                    | None => []
                    end
                | _ => []
                end)
             names).
Proof.
  intros Hcoh Hnames Hex Hls Hans.
  rewrite (process_directory_listing _ _ names) by done. cbn [outcome snd].
  rewrite process_files_answered.
  2: { intros fp (nm & -> & Hnm)%list_elem_of_fmap. by apply Hans. }
  cbn [outcome snd app]. f_equal. clear Hls Hans.
  induction Hnames as [|nm names Hnm _ IH]; [done|]. cbn [map flat_map].
  rewrite IH. f_equal. unfold DocProcR.records_kept, dict_mem.
  destruct (path_is_file rt (child (Path directory_path) nm)) as [e|[|]] eqn:Hfile;
    [done| |done].
  destruct (dict_get _ (supported_extensions self)) as [cls|] eqn:Hget; [|done].
  rewrite (load_document_loaded _ _ cls); rewrite ?Path_str_child by done;
    [|by apply Hcoh|done].
  by destruct (load cls _).
Qed.

End Runtime.

(** *** The calls that always answer *)

(** over an [OS] and the ASCII lowering the methods are those of [DocProc] *)
Lemma load_document_of_OS (os : OS) (load : loader_class → string → exn + list Document)
    (self : DocumentProcessor) (file_path : string) :
  DocProcR.load_document (of_OS os) load self file_path
    = DocProc.load_document os load self file_path.
Proof.
  unfold DocProcR.load_document, DocProc.load_document. cbn [of_OS path_exists str_lower].
  by rewrite call_answered.
Qed.

Lemma process_files_of_OS (os : OS) (load : loader_class → string → exn + list Document)
    (self : DocumentProcessor) (files : list path) (all_documents : list Document) :
  DocProcR.process_files (of_OS os) load self files all_documents
    = DocProc.process_files os load self files all_documents.
Proof.
  revert all_documents. induction files as [|fp files IH]; intros acc; [done|].
  cbn [DocProcR.process_files DocProc.process_files of_OS path_is_file str_lower].
  rewrite call_answered. destruct (os_is_file os fp && _); [|apply IH].
  rewrite load_document_of_OS.
  destruct (except _ _) as [l [e|acc']]; [done|].
  unfold mbind, M_bind. by rewrite IH.
Qed.

Lemma process_directory_of_OS (os : OS) (load : loader_class → string → exn + list Document)
    (self : DocumentProcessor) (directory_path : string) :
  DocProcR.process_directory (of_OS os) load self directory_path
    = DocProc.process_directory os load self directory_path.
Proof.
  unfold DocProcR.process_directory, DocProc.process_directory.
  cbn [of_OS path_exists path_iterdir]. rewrite call_answered.
  destruct (os_exists os _); [|done]. cbn [negb].
  destruct (os_listdir os _) as [e|names]; [done|].
  unfold call, mbind at 1 3, M_bind at 1 3. by rewrite process_files_of_OS.
Qed.

(** *** The theorems on the sample runtimes *)

Lemma unsupported_type_raises_witness :
  path_exists Latin.rt (Path "docs/x.ÉÉ") = inr true
  ∧ (".éé" ∉ [".pdf"; ".txt"; ".docx"; ".doc"])
  ∧ DocProcR.load_document Latin.rt Sample.load (init 1000 200) "docs/x.ÉÉ"
    = ([(ERROR, Unsupported_file_type ".éé")],
       inl (ValueError
              "Unsupported file type: .éé, supported types are: ['.pdf', '.txt', '.docx', '.doc']")).
Proof.
  assert (Hnot : ".éé" ∉ [".pdf"; ".txt"; ".docx"; ".doc"]).
  { rewrite !not_elem_of_cons. repeat split; [discriminate..|apply not_elem_of_nil]. }
  split; [reflexivity|]. split; [exact Hnot|].
  apply (unsupported_type_raises Latin.rt Sample.load 1000 200 "docs/x.ÉÉ");
    [reflexivity|exact Hnot].
Defined.

(** C6, the claim as stated fails: the folder [docs] exists and is listed, and
    the call raises the [PermissionError] of [is_file()] on the entry
    [b.pdf], after the records of [a.txt] were loaded. *)
Lemma process_directory_fails_on_an_entry :
  path_exists Locked.rt (Path "docs") = inr true
  ∧ path_iterdir Locked.rt (Path "docs")
    = inr ["a.txt"; "b.pdf"; "notes.csv"; "Report.PDF"; "old.doc"; "archive.txt"]
  ∧ DocProcR.process_directory Locked.rt Sample.load default "docs"
    = ([(INFO, Successfully_loaded_document "a.txt" 1)], inl (OSError EACCES "docs/b.pdf"))
  ∧ ¬ (∀ rt load self directory_path names,
         path_exists rt (Path directory_path) = inr true →
         path_iterdir rt (Path directory_path) = inr names →
         ∃ documents,
           outcome (DocProcR.process_directory rt load self directory_path)
             = inr documents).
Proof.
  split; [reflexivity|]. split; [reflexivity|]. split; [reflexivity|].
  intros H.
  destruct (H Locked.rt Sample.load default "docs" _ eq_refl eq_refl) as [documents Hd].
  discriminate Hd.
Qed.

Lemma process_directory_skips_load_failures_witness :
  path_exists (of_OS (os_of Sample.disk)) (Path "docs") = inr true
  ∧ path_iterdir (of_OS (os_of Sample.disk)) (Path "docs")
    = inr ["a.txt"; "b.pdf"; "notes.csv"; "Report.PDF"; "old.doc"; "archive.txt"]
  ∧ outcome (DocProcR.load_document (of_OS (os_of Sample.disk)) Sample.load default
               "docs/b.pdf")
    = inl (LibraryError "PdfReadError" "EOF marker not found")
  ∧ ∃ documents,
      outcome (DocProcR.process_directory (of_OS (os_of Sample.disk)) Sample.load default
                 "docs") = inr documents
      ∧ map page_content documents
        = ["plain text"; "first page"; "second page"; "marked text"].
Proof.
  split; [reflexivity|]. split; [reflexivity|]. split; [reflexivity|].
  eexists. split.
  - apply (process_directory_skips_load_failures (of_OS (os_of Sample.disk)) Sample.load
             default "docs"
             ["a.txt"; "b.pdf"; "notes.csv"; "Report.PDF"; "old.doc"; "archive.txt"]);
      [reflexivity|reflexivity|].
    intros nm _. eexists. reflexivity.
  - reflexivity.
Defined.

Lemma skipped_file_is_logged_witness :
  outcome (DocProcR.load_document (of_OS (os_of Sample.disk)) Sample.load default
             "docs/b.pdf")
    = inl (LibraryError "PdfReadError" "EOF marker not found")
  ∧ (ERROR, Failed_to_process_file "b.pdf"
              (LibraryError "PdfReadError" "EOF marker not found"))
    ∈ logs (DocProcR.process_directory (of_OS (os_of Sample.disk)) Sample.load default
              "docs").
Proof.
  split; [reflexivity|].
  eapply (skipped_file_is_logged (of_OS (os_of Sample.disk)) Sample.load default "docs" _
            ["a.txt"; "b.pdf"; "notes.csv"; "Report.PDF"; "old.doc"; "archive.txt"]
            "b.pdf"); try reflexivity.
  apply list_elem_of_further, list_elem_of_here.
Defined.

Lemma process_directory_by_loaders_witness :
  ∃ documents,
    outcome (DocProcR.process_directory (of_OS (os_of Sample.disk)) Sample.load default
               "docs") = inr documents
    ∧ map page_content documents
      = ["plain text"; "first page"; "second page"; "marked text"].
Proof.
  eexists. split.
  - apply (process_directory_by_loaders (of_OS (os_of Sample.disk)) Sample.load default
             "docs"
             ["a.txt"; "b.pdf"; "notes.csv"; "Report.PDF"; "old.doc"; "archive.txt"]);
      [|apply sample_names_are_components|reflexivity|reflexivity|].
    + intros p [= Hp]. cbn. f_equal. by apply is_file_exists.
    + intros nm _. eexists. reflexivity.
  - reflexivity.
Defined.

End DocProcRSpec.
